(** * molgenis-tools-commander: the request wrapper, the resource helpers
      and the script runner

    A shallow embedding of [mcmd/client/molgenis_client.py],
    [mcmd/commands/run.py], [mdev/__main__.py] and [mdev/requests.py].

    Python values that come out of [response.json()] are kept dynamically
    typed ([value]); Python exceptions are an explicit [exn] result; the
    network, the configuration and the [auth] module are a [World] that
    answers from the history of what happened so far; the session token and
    that history are the [State] threaded through every call. *)

From Stdlib Require Import ZArith String Ascii List Bool Lia.
From stdpp Require Import base option strings gmap.
Import ListNotations.

Local Open Scope string_scope.
Local Open Scope Z_scope.
Local Open Scope list_scope.
Set Warnings "-register-all".

(** ** Python values and exceptions *)

(** What [json.loads] produces.  A dict keeps its items in document order
    (the order [for k in d] walks them); its keys are distinct. *)
Inductive value : Type :=
| VNone
| VBool (b : bool)
| VInt (n : Z)
| VStr (s : string)
| VList (items : list value)
| VDict (items : list (string * value)).

(** The exceptions that can travel through the modelled code.
    [McmdError] carries whatever object it was built from. *)
Inductive exn : Type :=
| McmdError (msg : value)
| RequestException (text : string)
| KeyError
| IndexError
| TypeError
| AttributeError
| ValueError
| OSError (text : string)
| RecursionError
| SystemExit (code : Z).

Inductive result (A : Type) : Type :=
| Ok (a : A)
| Raise (e : exn).
Arguments Ok {A} a.
Arguments Raise {A} e.

(** ** Strings *)

(** [needle in s] on two [str]. *)
Fixpoint contains (needle s : string) : bool :=
  String.prefix needle s
  || match s with
     | EmptyString => false
     | String _ s' => contains needle s'
     end.

(** [s.startswith(p)]. *)
Definition startswith (s p : string) : bool := String.prefix p s.

Definition upper_ascii (c : ascii) : ascii :=
  let n := nat_of_ascii c in
  if ((97 <=? n) && (n <=? 122))%nat then ascii_of_nat (n - 32) else c.

(** What [s.upper()] gives for text that is all ASCII: the letters a to z
    become A to Z and nothing else changes. *)
Fixpoint ascii_upper (s : string) : string :=
  match s with
  | EmptyString => EmptyString
  | String c s' => String (upper_ascii c) (ascii_upper s')
  end.

(** The text is all ASCII: no byte of it is 128 or more. *)
Fixpoint is_ascii (s : string) : bool :=
  match s with
  | EmptyString => true
  | String c s' => (nat_of_ascii c <? 128)%nat && is_ascii s'
  end.

(** [s.split(' ')]: every single blank separates, so two blanks in a row
    give an empty word and the empty line gives one empty word. *)
Fixpoint split_space (s : string) : list string :=
  match s with
  | EmptyString => [EmptyString]
  | String c s' =>
      if Ascii.eqb c " "%char then EmptyString :: split_space s'
      else match split_space s' with
           | word :: words => String c word :: words
           | [] => [String c EmptyString]
           end
  end.

(** [s.rstrip('\n')]. *)
Fixpoint rstrip_newline (s : string) : string :=
  match s with
  | EmptyString => EmptyString
  | String c s' =>
      match rstrip_newline s' with
      | EmptyString =>
          if Ascii.eqb c "010"%char then EmptyString else String c EmptyString
      | t => String c t
      end
  end.

(** ** Operations on dynamically typed values *)

Fixpoint dict_get (k : string) (items : list (string * value)) : option value :=
  match items with
  | [] => None
  | (k', v) :: rest => if String.eqb k' k then Some v else dict_get k rest
  end.

(** [v == s] for a [str] s. *)
Definition py_eq_str (v : value) (s : string) : bool :=
  match v with
  | VStr t => String.eqb t s
  | _ => false
  end.

(** [k in v] for a [str] k. *)
Definition py_contains (k : string) (v : value) : result bool :=
  match v with
  | VDict items => Ok (existsb (fun kv => String.eqb (fst kv) k) items)
  | VList items => Ok (existsb (fun x => py_eq_str x k) items)
  | VStr s => Ok (contains k s)
  | _ => Raise TypeError
  end.

(** [v[k]] for a [str] k. *)
Definition py_getitem (v : value) (k : string) : result value :=
  match v with
  | VDict items =>
      match dict_get k items with
      | Some x => Ok x
      | None => Raise KeyError
      end
  | _ => Raise TypeError
  end.

(** [v[0]]. *)
Definition py_getitem0 (v : value) : result value :=
  match v with
  | VList (x :: _) => Ok x
  | VList [] => Raise IndexError
  | VStr (String c _) => Ok (VStr (String c EmptyString))
  | VStr EmptyString => Raise IndexError
  | VDict _ => Raise KeyError
  | _ => Raise TypeError
  end.

(** [v.startswith(p)]. *)
Definition py_startswith (v : value) (p : string) : result bool :=
  match v with
  | VStr s => Ok (startswith s p)
  | _ => Raise AttributeError
  end.

(** The first item [for x in v] binds, if there is one. *)
Definition py_first (v : value) : result (option value) :=
  match v with
  | VList items => Ok (head items)
  | VStr EmptyString => Ok None
  | VStr (String c _) => Ok (Some (VStr (String c EmptyString)))
  | VDict items => Ok (option_map (fun kv => VStr (fst kv)) (head items))
  | _ => Raise TypeError
  end.

(** The items [for x in v] walks through. *)
Definition py_iter (v : value) : result (list value) :=
  match v with
  | VList items => Ok items
  | VStr s => Ok (map (fun c => VStr (String c EmptyString)) (list_ascii_of_string s))
  | VDict items => Ok (map (fun kv => VStr (fst kv)) items)
  | _ => Raise TypeError
  end.

(** ** Enumerations *)

Inductive ResourceType : Type := ENTITY_TYPE | THEME | PACKAGE | PLUGIN.

Definition get_entity_id (r : ResourceType) : string :=
  match r with
  | ENTITY_TYPE => "sys_md_EntityType"
  | THEME => "sys_set_StyleSheet"
  | PACKAGE => "sys_md_Package"
  | PLUGIN => "sys_Plugin"
  end.

Definition get_resource_name (r : ResourceType) : string :=
  match r with
  | ENTITY_TYPE => "entityclass"
  | THEME => "stylesheet"
  | PACKAGE => "package"
  | PLUGIN => "plugin"
  end.

Definition get_label (r : ResourceType) : string :=
  match r with
  | ENTITY_TYPE => "Entity Type"
  | THEME => "Stylesheet"
  | PACKAGE => "Package"
  | PLUGIN => "Plugin"
  end.

Inductive PrincipalType : Type := USER | ROLE.

Definition principal_value (p : PrincipalType) : string :=
  match p with
  | USER => "user"
  | ROLE => "role"
  end.

(** What a caller can pass where a [PrincipalType] is expected: a member of
    the enumeration, or any other object, of which only [str(obj)] matters. *)
Inductive principal_arg : Type :=
| Member (p : PrincipalType)
| Other (shown : string).

(** ** Requests, responses, the world and the state *)

Inductive Method : Type := GET | POST.

Record Request : Type := {
  method : Method;
  url : string;
  headers : gmap string string;
  data : option (gmap string string)
}.

(** [body] is what [response.json()] returns, [None] when the body does not
    decode; [error_text] is [str(e)] of the [HTTPError] that
    [raise_for_status] builds for this response. *)
Record Response : Type := {
  status_code : Z;
  content_type : option string;
  body : option value;
  error_text : string
}.

(** The namespace the argument parser returns for one command line. *)
Record Args : Type := {
  command : string;
  script : string;
  ignore_errors : bool;
  arg_string : string;
  fields : list (string * string)
}.

Definition set_arg_string (a : Args) (line : string) : Args :=
  {| command := command a; script := script a;
     ignore_errors := ignore_errors a; arg_string := line;
     fields := fields a |}.

Inductive FileOutcome : Type :=
| Lines (raw : list string)
| Unreadable (text : string).

Inductive NetOutcome : Type :=
| Responded (r : Response)
| Failed (text : string).

Inductive LoginOutcome : Type :=
| LoggedIn (new_token : string)
| LoginFailed (e : exn).

Inductive Event : Type :=
| EvRequest (req : Request) (o : NetOutcome)
| EvLogin (o : LoginOutcome)
| EvDebug (msg : string)
| EvCommand (args : Args) (failure : option value)
| EvError (msg : value)
| EvHistory (line : string).

(** Everything outside the modelled files: [config.api], the server behind
    [requests], the [auth] module's login, [int()] on text, [str.upper] on
    text that is not all ASCII (the interpreter's Unicode tables), the
    number of nested calls the interpreter allows below a call, the
    argument parser, the script file as iterating over it yields its lines,
    and how a dispatched command ends ([None], or the message of the error
    it fails with).  The network, the login and the commands answer from
    the whole history, so any deterministic environment is a [World]. *)
Record World : Type := {
  api : string -> string;
  network : list Event -> Request -> NetOutcome;
  auth_login : list Event -> LoginOutcome;
  int_of_text : string -> option Z;
  upper_of_text : string -> string;
  recursion_limit : nat;
  parse_args : list string -> result Args;
  read_script : string -> FileOutcome;
  run_command : list Event -> Args -> option value
}.

(** [s.upper()]: computed on ASCII text, the interpreter's own on any
    other text. *)
Definition upper (w : World) (s : string) : string :=
  if is_ascii s then ascii_upper s else upper_of_text w s.

(** The session token of [auth], and everything that happened so far,
    oldest first. *)
Record State : Type := {
  token : string;
  trace : list Event
}.

(** A computation returns or raises, and leaves a state behind either way. *)
Definition M (A : Type) : Type := State -> result A * State.

Definition ret {A} (a : A) : M A := fun st => (Ok a, st).
Definition raise {A} (e : exn) : M A := fun st => (Raise e, st).
Definition lift {A} (r : result A) : M A := fun st => (r, st).
Definition bind {A B} (c : M A) (k : A -> M B) : M B :=
  fun st =>
    match c st with
    | (Ok a, st') => k a st'
    | (Raise e, st') => (Raise e, st')
    end.

Notation "x <- c ;; k" := (bind c (fun x => k))
  (at level 100, c at next level, right associativity).
Notation "c ;;; k" := (bind c (fun _ => k))
  (at level 100, right associativity).

Definition record (ev : Event) (st : State) : State :=
  {| token := token st; trace := trace st ++ [ev] |}.

(** ** [mcmd/client/molgenis_client.py] *)

Section Client.
Variable w : World.

(** [requests.get], [requests.post]: one request on the wire, answered by
    the world from the history so far. *)
Definition send (req : Request) : M Response :=
  fun st =>
    let o := network w (trace st) req in
    match o with
    | Responded r => (Ok r, record (EvRequest req o) st)
    | Failed text => (Raise (RequestException text), record (EvRequest req o) st)
    end.

(** [auth.get_token()]. *)
Definition get_token : M string := fun st => (Ok (token st), st).

(** Modelled from the spec: [auth.login] of the module [mcmd.client.auth],
    which is not among the sources.  It exchanges the configured
    credentials for a token and stores it as the current session state,
    or fails. *)
Definition login : M unit :=
  fun st =>
    let o := auth_login w (trace st) in
    match o with
    | LoggedIn t => (Ok tt, {| token := t; trace := trace st ++ [EvLogin o] |})
    | LoginFailed e => (Raise e, record (EvLogin o) st)
    end.

(** [log.debug(msg)]. *)
Definition log_debug (msg : string) : M unit :=
  fun st => (Ok tt, record (EvDebug msg) st).

(** [response.json()]. *)
Definition json (response : Response) : result value :=
  match body response with
  | Some j => Ok j
  | None => Raise ValueError
  end.

(** [response.raise_for_status()] raises [HTTPError]. *)
Definition raise_for_status (response : Response) : bool :=
  (400 <=? status_code response) && (status_code response <? 600).

Definition handle_json_error (response_json : value) : result unit :=
  match py_contains "errors" response_json with
  | Raise e => Raise e
  | Ok true =>
      match py_getitem response_json "errors" with
      | Raise e => Raise e
      | Ok errors =>
          match py_first errors with
          | Raise e => Raise e
          | Ok (Some error) =>
              match py_getitem error "message" with
              | Raise e => Raise e
              | Ok message => Raise (McmdError message)
              end
          | Ok None => Ok tt
          end
      end
  | Ok false =>
      match py_contains "errorMessage" response_json with
      | Raise e => Raise e
      | Ok true =>
          match py_getitem response_json "errorMessage" with
          | Raise e => Raise e
          | Ok message => Raise (McmdError message)
          end
      | Ok false => Ok tt
      end
  end.

Definition is_json (response : Response) : bool :=
  match content_type response with
  | Some ct => negb (String.eqb ct EmptyString) && contains "application/json" ct
  | None => false
  end.

Definition token_is_valid (response : Response) : result bool :=
  if (status_code response =? 401) && is_json response then
    match json response with
    | Raise e => Raise e
    | Ok j =>
        match py_getitem j "errors" with
        | Raise e => Raise e
        | Ok errors =>
            match py_getitem0 errors with
            | Raise e => Raise e
            | Ok error =>
                match py_contains "code" error with
                | Raise e => Raise e
                | Ok false => Ok true
                | Ok true =>
                    match py_getitem error "code" with
                    | Raise e => Raise e
                    | Ok code =>
                        if py_eq_str code "DS04" then
                          match py_contains "message" error with
                          | Raise e => Raise e
                          | Ok false => Ok true
                          | Ok true =>
                              match py_getitem error "message" with
                              | Raise e => Raise e
                              | Ok message =>
                                  match py_startswith message "No 'Read metadata' permission" with
                                  | Raise e => Raise e
                                  | Ok true => Ok false
                                  | Ok false => Ok true
                                  end
                              end
                          end
                        else Ok true
                    end
                end
            end
        end
    end
  else Ok true.

(** A decorated function: from the current token it builds the request it
    puts on the wire, or raises before it gets there. *)
Definition Func : Type := string -> result Request.

(** The call of the decorated function with the arguments it was given. *)
Definition invoke (func : Func) : M Response :=
  tok <- get_token ;;
  req <- lift (func tok) ;;
  send req.

(** [handle_request], the function the decorator [request] returns.
    [depth] is the number of nested calls the interpreter still allows. *)
Fixpoint handle_request (depth : nat) (func : Func) : M Response :=
  match depth with
  | O => raise RecursionError
  | S depth' =>
      fun st =>
        match invoke func st with
        | (Ok response, st1) =>
            if raise_for_status response then
              (valid <- lift (token_is_valid response) ;;
               (if negb valid
                then login ;;; (_ <- handle_request depth' func ;; ret tt)
                else ret tt) ;;;
               (if is_json response
                then response_json <- lift (json response) ;;
                     lift (handle_json_error response_json)
                else ret tt) ;;;
               raise (McmdError (VStr (error_text response)))) st1
            else (Ok response, st1)
        | (Raise (RequestException text), st1) =>
            (Raise (McmdError (VStr text)), st1)
        | (Raise e, st1) => (Raise e, st1)
        end
  end.

(** The decorated function as its callers see it: the outermost call, with
    [recursion_limit w] nested calls left below it. *)
Definition request (func : Func) : M Response :=
  handle_request (S (recursion_limit w)) func.

Definition _get_default_headers (tok : string) : gmap string string :=
  <["x-molgenis-token" := tok]> {["Content-Type" := "application/json"]}.

Definition get_func (url : string) : Func :=
  fun tok =>
    Ok {| method := GET; url := url;
          headers := _get_default_headers tok; data := None |}.

Definition get (url : string) : M Response := request (get_func url).

Definition grant_func (principal_type : principal_arg) (principal_name : string)
    (resource_type : ResourceType) (identifier permission : string) : Func :=
  fun tok =>
    let data : gmap string string := {["radio-" +:+ identifier := permission]} in
    match principal_type with
    | Member p =>
        let data :=
          match p with
          | USER => <["username" := principal_name]> data
          | ROLE => <["rolename" := upper w principal_name]> data
          end in
        let url := api w "perm" +:+ get_resource_name resource_type
                   +:+ "/" +:+ principal_value p in
        Ok {| method := POST; url := url;
              headers :=
                <["x-molgenis-token" := tok]>
                  {["Content-Type" := "application/x-www-form-urlencoded; charset=UTF-8"]};
              data := Some data |}
    | Other shown =>
        Raise (McmdError (VStr ("Unknown principal type: " +:+ shown)))
    end.

Definition grant (principal_type : principal_arg) (principal_name : string)
    (resource_type : ResourceType) (identifier permission : string) : M Response :=
  request (grant_func principal_type principal_name resource_type identifier permission).

(** [int(v)]. *)
Definition py_int (v : value) : result Z :=
  match v with
  | VInt n => Ok n
  | VBool b => Ok (if b then 1 else 0)
  | VStr s =>
      match int_of_text w s with
      | Some n => Ok n
      | None => Raise ValueError
      end
  | _ => Raise TypeError
  end.

Definition resource_exists (resource_id : string) (resource_type : ResourceType) : M bool :=
  log_debug ("Checking if " +:+ get_label resource_type +:+ " " +:+ resource_id +:+ " exists") ;;;
  (response <- get (api w "rest2" +:+ get_entity_id resource_type +:+ "?q=id==" +:+ resource_id) ;;
   response_json <- lift (json response) ;;
   total <- lift (py_getitem response_json "total") ;;
   n <- lift (py_int total) ;;
   ret (0 <? n)).

Definition ensure_resource_exists (resource_id : string) (resource_type : ResourceType) : M unit :=
  found <- resource_exists resource_id resource_type ;;
  if negb found
  then raise (McmdError (VStr ("No " +:+ get_label resource_type +:+ " found with id " +:+ resource_id)))
  else ret tt.

End Client.

(** ** The dispatch path of a parsed command *)

(** Modelled from the spec: the dispatch of a parsed command with its
    [exit_on_error] flag ([sub_args.func] under the decorator [command] of
    [mcmd.command], and [execute] of [mdev.commands]), neither of which is
    among the sources.  The command runs; its error is logged; the error
    halts the process when [exit_on_error] is set and is passed over when
    it is not. *)
Definition dispatch (w : World) (args : Args) (exit_on_error : bool) : M unit :=
  fun st =>
    let failure := run_command w (trace st) args in
    let st1 := record (EvCommand args failure) st in
    match failure with
    | None => (Ok tt, st1)
    | Some msg =>
        if exit_on_error
        then (Raise (SystemExit 1), record (EvError msg) st1)
        else (Ok tt, record (EvError msg) st1)
    end.

(** ** [mcmd/commands/run.py] *)

Module Mcmd.
Section Run.
Variable w : World.
(** What [sub_args.func(sub_args, exit_on_error)] does. *)
Variable func : Args -> bool -> M unit.

(** The [for line in lines] loop. *)
Fixpoint run_lines (exit_on_error : bool) (lines : list string) : M unit :=
  match lines with
  | [] => ret tt
  | line :: rest =>
      sub_args <- lift (parse_args w (split_space line)) ;;
      let sub_args := set_arg_string sub_args line in
      if String.eqb (command sub_args) "run"
      then raise (McmdError (VStr ("Can't use the run command in a script: " +:+ line)))
      else func sub_args exit_on_error ;;; run_lines exit_on_error rest
  end.

Definition run (args : Args) : M unit :=
  match read_script w (script args) with
  | Unreadable text =>
      raise (McmdError (VStr ("Error reading script: " +:+ text)))
  | Lines raw =>
      let lines := map rstrip_newline raw in
      let exit_on_error := negb (ignore_errors args) in
      run_lines exit_on_error lines
  end.
End Run.
End Mcmd.

(** ** [mdev/__main__.py] and [mdev/requests.py] *)

Module Mdev.
Section Main.
Variable w : World.
(** What [execute(sub_args, exit_on_error)] does. *)
Variable execute : Args -> bool -> M unit.

Definition log_error (msg : value) : M unit :=
  fun st => (Ok tt, record (EvError msg) st).

Definition history_write (line : string) : M unit :=
  fun st => (Ok tt, record (EvHistory line) st).

(** The [for line in lines] loop. *)
Fixpoint run_lines (exit_on_error : bool) (lines : list string) : M unit :=
  match lines with
  | [] => ret tt
  | line :: rest =>
      sub_args <- lift (parse_args w (split_space line)) ;;
      if String.eqb (command sub_args) "run"
      then
        log_error (VStr ("Can't use the run command in a script: " +:+ line)) ;;;
        (if exit_on_error
         then raise (SystemExit 1)
         else run_lines exit_on_error rest)
      else
        history_write line ;;;
        execute sub_args exit_on_error ;;;
        run_lines exit_on_error rest
  end.

Definition run (args : Args) : M unit :=
  match read_script w (script args) with
  | Unreadable text => raise (OSError text)
  | Lines raw =>
      let lines := map rstrip_newline raw in
      let exit_on_error := negb (ignore_errors args) in
      run_lines exit_on_error lines
  end.

(** [for error in errors: log.error(error['message'])]. *)
Fixpoint log_each_message (errors : list value) : M unit :=
  match errors with
  | [] => ret tt
  | error :: rest =>
      message <- lift (py_getitem error "message") ;;
      log_error message ;;;
      log_each_message rest
  end.

(** [_handle_request] of [mdev/requests.py]; [request] is the thunk that
    puts one request on the wire. *)
Definition _handle_request (request : Request) : M Response :=
  fun st =>
    match send w request st with
    | (Ok response, st1) =>
        if raise_for_status response then
          ((match content_type response with
            | None => raise TypeError
            | Some ct =>
                if contains "application/json" ct then
                  response_json <- lift (json response) ;;
                  has_errors <- lift (py_contains "errors" response_json) ;;
                  if (has_errors : bool) then
                    again <- lift (json response) ;;
                    errors <- lift (py_getitem again "errors") ;;
                    items <- lift (py_iter errors) ;;
                    log_each_message items ;;;
                    raise (SystemExit 1)
                  else ret tt
                else ret tt
            end) ;;;
           log_error (VStr (error_text response)) ;;;
           raise (SystemExit 1)) st1
        else (Ok response, st1)
    | (Raise (RequestException text), st1) =>
        (log_error (VStr text) ;;; raise (SystemExit 1)) st1
    | (Raise e, st1) => (Raise e, st1)
    end.
End Main.
End Mdev.

(** ** More of [mcmd/client/molgenis_client.py] *)

(** [sep.join(words)]. *)
Fixpoint join (sep : string) (words : list string) : string :=
  match words with
  | [] => EmptyString
  | word :: rest =>
      match rest with
      | [] => word
      | _ :: _ => word +:+ sep +:+ join sep rest
      end
  end.

Definition blank_to_underscore (c : ascii) : ascii :=
  if Ascii.eqb c " "%char then "_"%char else c.

(** [label.replace(' ', '_')]. *)
Fixpoint replace_blanks (s : string) : string :=
  match s with
  | EmptyString => EmptyString
  | String c s' => String (blank_to_underscore c) (replace_blanks s')
  end.

(** [ResourceType[name]]: the member of that name, or [KeyError]. *)
Definition member_named (name : string) : result ResourceType :=
  if String.eqb name "ENTITY_TYPE" then Ok ENTITY_TYPE
  else if String.eqb name "THEME" then Ok THEME
  else if String.eqb name "PACKAGE" then Ok PACKAGE
  else if String.eqb name "PLUGIN" then Ok PLUGIN
  else Raise KeyError.

Definition of_label (w : World) (label : string) : result ResourceType :=
  member_named (upper w (replace_blanks label)).

Section Principals.
Variable w : World.

Definition one_resource_exists (resources : list string) (resource_type : ResourceType) : M bool :=
  log_debug ("Checking if one of [" +:+ join "," resources +:+ "] exists in ["
             +:+ get_label resource_type +:+ "]") ;;;
  (response <- get w (api w "rest2" +:+ get_entity_id resource_type
                      +:+ "?q=id=in=(" +:+ join "," resources +:+ ")") ;;
   response_json <- lift (json response) ;;
   total <- lift (py_getitem response_json "total") ;;
   n <- lift (py_int w total) ;;
   ret (0 <? n)).

Definition user_exists (username : string) : M bool :=
  log_debug ("Checking if user " +:+ username +:+ " exists") ;;;
  (response <- get w (api w "rest2" +:+ "sys_sec_User?q=username==" +:+ username) ;;
   response_json <- lift (json response) ;;
   total <- lift (py_getitem response_json "total") ;;
   n <- lift (py_int w total) ;;
   ret (0 <? n)).

Definition role_exists (rolename : string) : M bool :=
  log_debug ("Checking if role " +:+ rolename +:+ " exists") ;;;
  (response <- get w (api w "rest2" +:+ "sys_sec_Role?q=name==" +:+ upper w rolename) ;;
   response_json <- lift (json response) ;;
   total <- lift (py_getitem response_json "total") ;;
   n <- lift (py_int w total) ;;
   ret (0 <? n)).

Definition principal_exists (principal_name : string) (principal_type : principal_arg) : M bool :=
  match principal_type with
  | Member USER => user_exists principal_name
  | Member ROLE => role_exists principal_name
  | Other shown => raise (McmdError (VStr ("Unknown principal type: " +:+ shown)))
  end.

(** An object that is no member has no [value] to format into the
    message; [principal_exists] has raised before that is asked for. *)
Definition ensure_principal_exists (principal_name : string) (principal_type : principal_arg) : M unit :=
  found <- principal_exists principal_name principal_type ;;
  if negb found then
    match principal_type with
    | Member p =>
        raise (McmdError (VStr ("No " +:+ principal_value p +:+ " found with id "
                                +:+ principal_name)))
    | Other _ => raise AttributeError
    end
  else ret tt.

End Principals.

(** ** The entry point of [mdev/__main__.py] *)

Fixpoint assoc (k : string) (items : list (string * string)) : option string :=
  match items with
  | [] => None
  | (k', v) :: rest => if String.eqb k' k then Some v else assoc k rest
  end.

(** [set_log_level]: the level it sets is outside the model; what is left
    is [int(args.verbose)], asked only for a [verbose] that is there and
    not empty. *)
Definition set_log_level (w : World) (args : Args) : result unit :=
  match assoc "verbose" (fields args) with
  | Some verbose =>
      if String.eqb verbose EmptyString then Ok tt
      else match int_of_text w verbose with
           | Some _ => Ok tt
           | None => Raise ValueError
           end
  | None => Ok tt
  end.

(** [main] on the words of the command line, [sys.argv[1:]];
    [load_config] only reads the configuration the world stands for. *)
Definition main (w : World) (execute : Args -> bool -> M unit) (argv : list string) : M unit :=
  args <- lift (parse_args w argv) ;;
  lift (set_log_level w args) ;;;
  (if String.eqb (command args) "run"
   then Mdev.run w execute args
   else Mdev.history_write (join " " argv) ;;; execute args true).

(** ** Measures on a history *)

Definition is_request (ev : Event) : bool :=
  match ev with EvRequest _ _ => true | _ => false end.

Definition is_login (ev : Event) : bool :=
  match ev with EvLogin _ => true | _ => false end.

Definition requests_sent (h : list Event) : nat := length (List.filter is_request h).

Definition logins_made (h : list Event) : nat := length (List.filter is_login h).

(** The response tells the wrapper that the session is gone: this is when
    [token_is_valid] answers [False]. *)
Definition invalid_session (r : Response) : bool :=
  match token_is_valid r with
  | Ok false => true
  | _ => false
  end.

Definition is_invalid_session_answer (ev : Event) : bool :=
  match ev with
  | EvRequest _ (Responded r) => invalid_session r
  | _ => false
  end.

Definition invalid_sessions_seen (h : list Event) : nat :=
  length (List.filter is_invalid_session_answer h).

(** The commands that were dispatched, oldest first. *)
Fixpoint dispatched (h : list Event) : list Args :=
  match h with
  | [] => []
  | EvCommand a _ :: rest => a :: dispatched rest
  | _ :: rest => dispatched rest
  end.

(** ** Notions the properties are stated with *)

(** The four conditions on a response, spelled out: status 401, a
    Content-Type that contains [application/json], and a first structured
    error whose code is [DS04] and whose message starts with
    [No 'Read metadata' permission]. *)
Definition session_expired (r : Response) : Prop :=
  status_code r = 401 /\
  (exists ct, content_type r = Some ct /\ contains "application/json" ct = true) /\
  (exists top rest error msg,
      body r = Some (VDict top) /\
      dict_get "errors" top = Some (VList (VDict error :: rest)) /\
      dict_get "code" error = Some (VStr "DS04") /\
      dict_get "message" error = Some (VStr msg) /\
      startswith msg "No 'Read metadata' permission" = true).

(** The exception the last three statements of the [HTTPError] handler end
    with: the one [handle_json_error] raises on a JSON body, the raw
    [McmdError(str(e))] otherwise. *)
Definition decoded_error (response : Response) : exn :=
  if is_json response then
    match json response with
    | Raise e => e
    | Ok response_json =>
        match handle_json_error response_json with
        | Raise e => e
        | Ok _ => McmdError (VStr (error_text response))
        end
    end
  else McmdError (VStr (error_text response)).

(** The shape of what one call of the wrapper adds to the history: answers
    that end the session, each followed by a login, and then at most one
    answer of another kind. *)
Inductive wrapper_trace : list Event -> Prop :=
| wt_silent : wrapper_trace []
| wt_last req o :
    is_invalid_session_answer (EvRequest req o) = false ->
    wrapper_trace [EvRequest req o]
| wt_retry req r lo rest :
    invalid_session r = true ->
    wrapper_trace rest ->
    wrapper_trace (EvRequest req (Responded r) :: EvLogin lo :: rest).


(** The value of a field of the form a request carries. *)
Definition form_field (req : Request) (k : string) : option string :=
  match data req with
  | Some form => form !! k
  | None => None
  end.

(** The event is not a request, or it is one that [func] builds. *)
Definition built_by (func : Func) (ev : Event) : Prop :=
  match ev with
  | EvRequest req _ => exists tok, func tok = Ok req
  | _ => True
  end.

(** The command a script line stands for: none when the line does not
    parse or names the [run] command.  [mcmd] stores the line in the
    namespace before it dispatches it, [mdev] does not. *)
Definition line_command (w : World) (stores_line : bool) (line : string) : option Args :=
  match parse_args w (split_space line) with
  | Ok a =>
      if String.eqb (command a) "run" then None
      else Some (if stores_line then set_arg_string a line else a)
  | Raise _ => None
  end.

Fixpoint script_commands (w : World) (stores_line : bool) (lines : list string) : list Args :=
  match lines with
  | [] => []
  | line :: rest =>
      match line_command w stores_line line with
      | Some a => a :: script_commands w stores_line rest
      | None => script_commands w stores_line rest
      end
  end.

(** The raw line of the file parses to the command [a], which is not [run]. *)
Definition plain_line (w : World) (raw : string) (a : Args) : Prop :=
  parse_args w (split_space (rstrip_newline raw)) = Ok a /\ command a <> "run".

(** The command ends well, or fails with [msg], whenever it is run. *)
Definition succeeds (w : World) (a : Args) : Prop :=
  forall h tag, run_command w h (set_arg_string a tag) = None.

Definition fails_with (w : World) (a : Args) (msg : value) : Prop :=
  forall h tag, run_command w h (set_arg_string a tag) = Some msg.

(** The run ended in an error and dispatched nothing: what stopping at
    the first line of a script comes to. *)
Definition fails_without_dispatch (outcome : result unit * State) (st : State) : Prop :=
  (exists e, fst outcome = Raise e) /\
  dispatched (trace (snd outcome)) = dispatched (trace st).

(** ** Concrete servers and scripts, used to run the code on inputs *)

Definition no_read_permission : Response :=
  {| status_code := 401;
     content_type := Some "application/json;charset=UTF-8";
     body := Some (VDict [("errors",
               VList [VDict [("message",
                              VStr "No 'Read metadata' permission on entity type 'Entity type' with id 'sys_md_EntityType'.");
                             ("code", VStr "DS04")]])]);
     error_text := "401 Client Error:  for url: http://localhost:8080/api/v2/sys_md_Package?q=id==base" |}.

Definition counted (total : Z) : Response :=
  {| status_code := 200;
     content_type := Some "application/json;charset=UTF-8";
     body := Some (VDict [("href", VStr "/api/v2/sys_md_Package");
                          ("start", VInt 0); ("num", VInt 100);
                          ("total", VInt total); ("items", VList [])]);
     error_text := EmptyString |}.

Definition two_errors : Response :=
  {| status_code := 400;
     content_type := Some "application/json";
     body := Some (VDict [("errors",
               VList [VDict [("message", VStr "Unknown entity type 'base'"); ("code", VStr "D01")];
                      VDict [("message", VStr "Unknown attribute 'label'"); ("code", VStr "D04")]])]);
     error_text := "400 Client Error:  for url: http://localhost:8080/api/v2/sys_md_Package?q=id==base" |}.

Definition local_api (name : string) : string :=
  if String.eqb name "rest2" then "http://localhost:8080/api/v2/"
  else if String.eqb name "perm" then "http://localhost:8080/menu/admin/permissionmanager/update/"
  else "http://localhost:8080/" +:+ name.

(** A parser for the examples: the first word is the command, the second
    the script of a [run], [-i] or [--ignore-errors] the flag. *)
Definition word_parser (words : list string) : result Args :=
  match words with
  | [] => Raise (SystemExit 2)
  | cmd :: rest =>
      if String.eqb cmd EmptyString then Raise (SystemExit 2)
      else Ok {| command := cmd;
                 script := hd EmptyString rest;
                 ignore_errors :=
                   existsb (fun x => String.eqb x "-i" || String.eqb x "--ignore-errors") rest;
                 arg_string := EmptyString;
                 fields := [] |}
  end.

(** A world whose server gives the [answers] in turn and [later] after
    them, where every login yields the token [fresh], the one script holds
    [lines], and the command [delete] is the one that fails. *)
Definition scripted (answers : list NetOutcome) (later : NetOutcome)
    (lines : list string) : World :=
  {| api := local_api;
     network := fun h _ => nth (requests_sent h) answers later;
     auth_login := fun _ => LoggedIn "fresh";
     int_of_text := fun _ => None;
     upper_of_text := ascii_upper;
     recursion_limit := 1000;
     parse_args := word_parser;
     read_script := fun _ => Lines lines;
     run_command := fun _ a =>
       if String.eqb (command a) "delete"
       then Some (VStr "No Package found with id base")
       else None |}.

Definition start : State := {| token := "stale"; trace := [] |}.

Definition package_query : string :=
  "http://localhost:8080/api/v2/sys_md_Package?q=id==base".

(** The request [get(package_query)] puts on the wire under a token. *)
Definition query_with (tok : string) : Request :=
  {| method := GET; url := package_query;
     headers := _get_default_headers tok; data := None |}.


(** The server refuses the stale session once, then answers. *)
Definition denied_once : World :=
  scripted [Responded no_read_permission] (Responded (counted 1)) [].

(** The server rejects the request with two error messages. *)
Definition rejected : World :=
  scripted [Responded two_errors] (Responded (counted 1)) [].

(** A backend that reports [total] matches for every query. *)
Definition backend (total : Z) : World := scripted [] (Responded (counted total)) [].

Definition newline : string := String "010"%char EmptyString.

Definition run_args (ignore : bool) : Args :=
  {| command := "run"; script := "setup.mcmd"; ignore_errors := ignore;
     arg_string := "run setup.mcmd"; fields := [] |}.

(** The namespace [word_parser] returns for a line. *)
Definition parsed (cmd target line : string) : Args :=
  {| command := cmd; script := target; ignore_errors := false;
     arg_string := line; fields := [] |}.

(** A script that invokes the script runner on its first line. *)
Definition nested : World :=
  scripted [] (Responded (counted 1))
    ["run other.mcmd" +:+ newline; "add user bob" +:+ newline].

(** A script whose second line fails. *)
Definition three_lines : World :=
  scripted [] (Responded (counted 1))
    ["add user bob" +:+ newline; "delete package base" +:+ newline; "add group staff"].

(** ** Further notions and inputs *)

(** The token in force after the events [h], starting from [tok]: the one
    of the last login that went through. *)
Fixpoint current_token (h : list Event) (tok : string) : string :=
  match h with
  | [] => tok
  | EvLogin (LoggedIn t) :: rest => current_token rest t
  | _ :: rest => current_token rest tok
  end.

(** The lines written to the history file, oldest first. *)
Fixpoint history_lines (h : list Event) : list string :=
  match h with
  | [] => []
  | EvHistory line :: rest => line :: history_lines rest
  | _ :: rest => history_lines rest
  end.

Definition is_error_log (ev : Event) : bool :=
  match ev with EvError _ => true | _ => false end.

(** A 401 whose JSON body has no list of errors. *)
Definition bad_credentials : Response :=
  {| status_code := 401;
     content_type := Some "application/json";
     body := Some (VDict [("errorMessage", VStr "Bad credentials")]);
     error_text := "401 Client Error:  for url: http://localhost:8080/api/v2/sys_md_Package?q=id==base" |}.

(** A 500 whose list of errors is empty. *)
Definition no_errors : Response :=
  {| status_code := 500;
     content_type := Some "application/json";
     body := Some (VDict [("errors", VList [])]);
     error_text := "500 Server Error:  for url: http://localhost:8080/api/v2/sys_md_Package?q=id==base" |}.

(** A 400 in the older format, with one [errorMessage]. *)
Definition legacy_error : Response :=
  {| status_code := 400;
     content_type := Some "application/json";
     body := Some (VDict [("errorMessage", VStr "Invalid query")]);
     error_text := "400 Client Error:  for url: http://localhost:8080/api/v2/sys_md_Package?q=id==base" |}.

(** A 502 from a proxy: an HTML page. *)
Definition bad_gateway : Response :=
  {| status_code := 502;
     content_type := Some "text/html";
     body := None;
     error_text := "502 Server Error: Bad Gateway for url: http://localhost:8080/api/v2/sys_md_Package?q=id==base" |}.

(** A 404 without a Content-Type header. *)
Definition headerless : Response :=
  {| status_code := 404;
     content_type := None;
     body := None;
     error_text := "404 Client Error:  for url: http://localhost:8080/api/v2/sys_md_Package?q=id==base" |}.

(** A 200 whose body reports no total. *)
Definition totalless : Response :=
  {| status_code := 200;
     content_type := Some "application/json";
     body := Some (VDict [("items", VList [])]);
     error_text := EmptyString |}.

(** The server answers every request with [r]. *)
Definition always (r : Response) : World := scripted [] (Responded r) [].

(** The server cannot be reached. *)
Definition unreachable : World := scripted [] (Failed "Connection refused") [].

(** The server refuses the session and the login fails. *)
Definition locked_out : World :=
  {| api := local_api;
     network := fun _ _ => Responded no_read_permission;
     auth_login := fun _ => LoginFailed (McmdError (VStr "Unknown username or password"));
     int_of_text := fun _ => None;
     upper_of_text := ascii_upper;
     recursion_limit := 1000;
     parse_args := word_parser;
     read_script := fun _ => Lines [];
     run_command := fun _ _ => None |}.

(** A command that does nothing and ends well. *)
Definition idle (args : Args) (exit_on_error : bool) : M unit := ret tt.

(** What [int(response.json()['total']) > 0] comes to for a response. *)
Definition reported_matches (w : World) (response : Response) : result bool :=
  match json response with
  | Raise e => Raise e
  | Ok response_json =>
      match py_getitem response_json "total" with
      | Raise e => Raise e
      | Ok total =>
          match py_int w total with
          | Raise e => Raise e
          | Ok n => Ok (0 <? n)
          end
      end
  end.

(** The line parses to a command other than [run]. *)
Definition dispatchable (w : World) (line : string) : bool :=
  match line_command w false line with
  | Some _ => true
  | None => false
  end.


(** * Properties *)

(** ** Values and strings *)

Lemma dict_get_existsb k items v :
  dict_get k items = Some v ->
  existsb (fun kv : string * value => String.eqb (fst kv) k) items = true.
Proof.
  induction items as [|[k' v'] rest IH]; simpl; [discriminate|].
  destruct (String.eqb k' k); simpl; auto.
Qed.

Lemma contains_app needle l r : contains needle (l +:+ needle +:+ r) = true.
Proof.
  induction l as [|c l IH]; simpl.
  - assert (H : String.prefix needle (needle +:+ r) = true).
    { induction needle as [|a n IHn]; simpl; [now destruct r|].
      destruct (ascii_dec a a); [exact IHn | contradiction]. }
    destruct (needle +:+ r); simpl in *; rewrite H; reflexivity.
  - rewrite IH. apply orb_true_r.
Qed.

Lemma upper_ascii_idem c : upper_ascii (upper_ascii c) = upper_ascii c.
Proof.
  destruct c as [[] [] [] [] [] [] [] []]; reflexivity.
Qed.

Lemma ascii_upper_idem s : ascii_upper (ascii_upper s) = ascii_upper s.
Proof.
  induction s as [|c s IH]; simpl; [reflexivity|].
  now rewrite upper_ascii_idem, IH.
Qed.

Lemma ascii_upper_length s : String.length (ascii_upper s) = String.length s.
Proof. induction s as [|c s IH]; simpl; congruence. Qed.

Lemma upper_ascii_stays_ascii c :
  (nat_of_ascii (upper_ascii c) <? 128)%nat = (nat_of_ascii c <? 128)%nat.
Proof. destruct c as [[] [] [] [] [] [] [] []]; reflexivity. Qed.

Lemma is_ascii_ascii_upper s : is_ascii (ascii_upper s) = is_ascii s.
Proof.
  induction s as [|c s IH]; [reflexivity|].
  cbn [ascii_upper is_ascii]. now rewrite upper_ascii_stays_ascii, IH.
Qed.

Lemma upper_of_ascii w s : is_ascii s = true -> upper w s = ascii_upper s.
Proof. intros H. unfold upper. now rewrite H. Qed.

Lemma upper_idem w s : is_ascii s = true -> upper w (upper w s) = upper w s.
Proof.
  intros H. rewrite (upper_of_ascii w s H), upper_of_ascii.
  - apply ascii_upper_idem.
  - now rewrite is_ascii_ascii_upper.
Qed.

(** ** When the wrapper takes a session for gone *)

Lemma contains_code_char c : contains "code" (String c EmptyString) = false.
Proof. destruct c as [[] [] [] [] [] [] [] []]; reflexivity. Qed.

Lemma token_is_valid_false_expired r :
  token_is_valid r = Ok false -> session_expired r.
Proof.
  unfold token_is_valid, session_expired, is_json, json.
  destruct (status_code r =? 401) eqn:Hs; simpl; [|discriminate].
  apply Z.eqb_eq in Hs.
  destruct (content_type r) as [ct|] eqn:Hct; [|discriminate].
  destruct (negb (String.eqb ct EmptyString) && contains "application/json" ct) eqn:Hj;
    [|discriminate].
  apply andb_true_iff in Hj as [_ Hj].
  destruct (body r) as [[| | | |?|top]|] eqn:Hb; simpl; try discriminate.
  destruct (dict_get "errors" top) as [errors|] eqn:He; [|discriminate].
  destruct errors as [| | |s|items|d]; simpl; try discriminate.
  { destruct s as [|c s]; [discriminate|].
    unfold py_contains. now rewrite contains_code_char. }
  destruct items as [|error rest]; [discriminate|].
  destruct error as [| | |s|l|error]; simpl; try discriminate.
  { destruct (contains "code" s); discriminate. }
  { destruct (existsb _ l); discriminate. }
  destruct (existsb _ error); [|discriminate].
  destruct (dict_get "code" error) as [code|] eqn:Hc; [|discriminate].
  destruct code as [| | |code| |]; simpl; try discriminate.
  destruct (String.eqb code "DS04") eqn:Hd; [|discriminate].
  apply String.eqb_eq in Hd. subst code.
  destruct (existsb _ error); [|discriminate].
  destruct (dict_get "message" error) as [message|] eqn:Hm; [|discriminate].
  destruct message as [| | |msg| |]; simpl; try discriminate.
  destruct (startswith msg "No 'Read metadata' permission") eqn:Hp; [|discriminate].
  intros _. split; [exact Hs|]. split; [eauto|].
  exists top, rest, error, msg. auto.
Qed.

Lemma expired_token_is_valid_false r :
  session_expired r -> token_is_valid r = Ok false.
Proof.
  intros (Hs & (ct & Hct & Hj) & (top & rest & error & msg & Hb & He & Hc & Hm & Hp)).
  unfold token_is_valid, is_json, json. rewrite Hs, Hct, Hb. simpl.
  assert (Hne : String.eqb ct EmptyString = false).
  { destruct ct; [discriminate Hj | reflexivity]. }
  rewrite Hne, Hj. simpl. rewrite He. simpl.
  rewrite (dict_get_existsb _ _ _ Hc), Hc. simpl.
  rewrite (dict_get_existsb _ _ _ Hm), Hm. simpl.
  now rewrite Hp.
Qed.

Lemma invalid_session_expired r : invalid_session r = true <-> session_expired r.
Proof.
  unfold invalid_session. split.
  - destruct (token_is_valid r) as [[]|] eqn:H; try discriminate.
    intros _. now apply token_is_valid_false_expired.
  - intros H. now rewrite (expired_token_is_valid_false _ H).
Qed.

Lemma invalid_session_raises r : invalid_session r = true -> raise_for_status r = true.
Proof.
  intros H. apply invalid_session_expired in H as [Hs _].
  unfold raise_for_status. rewrite Hs. reflexivity.
Qed.

(** ** One call of the wrapper, step by step *)

Lemma decode_tail r st :
  ((if is_json r
    then response_json <- lift (json r) ;; lift (handle_json_error response_json)
    else ret tt) ;;;
   raise (McmdError (VStr (error_text r)))) st
  = (@Raise Response (decoded_error r), st).
Proof.
  unfold decoded_error, bind, lift, raise, ret.
  destruct (is_json r); [|reflexivity].
  destruct (json r) as [j|e]; [|reflexivity].
  destruct (handle_json_error j) as [[]|e]; reflexivity.
Qed.

Lemma handle_request_step w depth func st :
  handle_request w (S depth) func st =
  match func (token st) with
  | Raise (RequestException text) => (Raise (McmdError (VStr text)), st)
  | Raise e => (Raise e, st)
  | Ok req =>
      let o := network w (trace st) req in
      let st1 := record (EvRequest req o) st in
      match o with
      | Failed text => (Raise (McmdError (VStr text)), st1)
      | Responded r =>
          if raise_for_status r then
            match token_is_valid r with
            | Raise e => (Raise e, st1)
            | Ok true => (Raise (decoded_error r), st1)
            | Ok false =>
                match login w st1 with
                | (Raise e, st2) => (Raise e, st2)
                | (Ok _, st2) =>
                    match handle_request w depth func st2 with
                    | (Raise e, st3) => (Raise e, st3)
                    | (Ok _, st3) => (Raise (decoded_error r), st3)
                    end
                end
            end
          else (Ok r, st1)
      end
  end.
Proof.
  cbn [handle_request]. unfold invoke, get_token, send.
  unfold bind at 1 2. unfold lift at 1.
  destruct (func (token st)) as [req|e]; [|now destruct e].
  cbn zeta. destruct (network w (trace st) req) as [r|text]; [|reflexivity].
  destruct (raise_for_status r); [|reflexivity].
  unfold bind at 1. unfold lift at 1.
  destruct (token_is_valid r) as [[]|e]; [| |reflexivity].
  - cbn [negb]. unfold bind at 1. unfold ret at 1. apply decode_tail.
  - cbn [negb]. unfold bind at 1. unfold bind at 1.
    destruct (login w _) as [[[]|e] st2]; [|reflexivity].
    unfold bind at 1.
    destruct (handle_request w depth func st2) as [[resp|e] st3]; [|reflexivity].
    unfold ret at 1. apply decode_tail.
Qed.

Lemma login_trace w st :
  trace (snd (login w st)) = trace st ++ [EvLogin (auth_login w (trace st))].
Proof. unfold login. now destruct (auth_login w (trace st)). Qed.

Lemma handle_request_trace w depth :
  forall func st,
  exists added,
    trace (snd (handle_request w depth func st)) = trace st ++ added /\
    wrapper_trace added /\
    (logins_made added <= depth)%nat.
Proof.
  induction depth as [|depth IH]; intros func st.
  { exists []. simpl. rewrite app_nil_r.
    split; [reflexivity | split; [apply wt_silent | reflexivity]]. }
  rewrite handle_request_step.
  destruct (func (token st)) as [req|e].
  2:{ exists []. rewrite app_nil_r.
      destruct e; simpl;
        (split; [reflexivity | split; [apply wt_silent | unfold logins_made; simpl; lia]]). }
  cbn zeta. destruct (network w (trace st) req) as [r|text] eqn:Hnet.
  2:{ exists [EvRequest req (Failed text)]. simpl.
      split; [reflexivity | split; [now apply wt_last | unfold logins_made; simpl; lia]]. }
  assert (Hone : forall res : result Response,
    invalid_session r = false ->
    exists added,
      trace (snd (res, record (EvRequest req (Responded r)) st)) = trace st ++ added /\
      wrapper_trace added /\ (logins_made added <= S depth)%nat).
  { intros res Hv. exists [EvRequest req (Responded r)]. simpl.
    split; [reflexivity | split; [now apply wt_last | unfold logins_made; simpl; lia]]. }
  destruct (raise_for_status r) eqn:Hraise.
  2:{ apply Hone. destruct (invalid_session r) eqn:Hv; [|reflexivity].
      apply invalid_session_raises in Hv. congruence. }
  destruct (token_is_valid r) as [[]|e] eqn:Hvalid;
    try (apply Hone; unfold invalid_session; now rewrite Hvalid).
  assert (Hv : invalid_session r = true)
    by (unfold invalid_session; now rewrite Hvalid).
  set (st1 := record (EvRequest req (Responded r)) st).
  pose proof (login_trace w st1) as Hlog.
  destruct (login w st1) as [[[]|e] st2]; simpl in Hlog.
  - destruct (IH func st2) as (added & Hadd & Hshape & Hcount).
    exists (EvRequest req (Responded r) :: EvLogin (auth_login w (trace st1)) :: added).
    split.
    + destruct (handle_request w depth func st2) as [[resp|e] st3]; simpl in *;
        rewrite Hadd, Hlog, <- !app_assoc; reflexivity.
    + split; [now apply wt_retry|].
      unfold logins_made in *. simpl. lia.
  - exists [EvRequest req (Responded r); EvLogin (auth_login w (trace st1))].
    simpl. rewrite Hlog. simpl. rewrite <- app_assoc. simpl.
    split; [reflexivity | split; [apply wt_retry; [assumption | apply wt_silent]|]].
    unfold logins_made. simpl. lia.
Qed.

Lemma wrapper_trace_counts added :
  wrapper_trace added ->
  logins_made added = invalid_sessions_seen added /\
  (requests_sent added <= logins_made added + 1)%nat.
Proof.
  unfold logins_made, invalid_sessions_seen, requests_sent.
  induction 1 as [|req o Ho|req r lo rest Hr _ [IH1 IH2]].
  - simpl. lia.
  - cbn [List.filter is_login is_request]. rewrite Ho. simpl. lia.
  - cbn [List.filter is_login is_request is_invalid_session_answer].
    rewrite Hr. simpl. lia.
Qed.

Lemma wrapper_trace_login added :
  wrapper_trace added ->
  forall pre lo post,
    added = pre ++ EvLogin lo :: post ->
    exists pre' req r,
      pre = pre' ++ [EvRequest req (Responded r)] /\ invalid_session r = true.
Proof.
  induction 1 as [|req o Ho|req r lo' rest Hr Hrest IH]; intros pre lo post Heq.
  - now destruct pre.
  - destruct pre as [|? [|? ?]]; discriminate.
  - destruct pre as [|ev pre]; [discriminate|].
    injection Heq as <- Heq.
    destruct pre as [|ev pre].
    + exists [], req, r. auto.
    + injection Heq as <- Heq.
      destruct (IH _ _ _ Heq) as (pre' & req' & r' & -> & Hr').
      exists (EvRequest req (Responded r) :: EvLogin lo' :: pre'), req', r'. auto.
Qed.

(** The wrapper hands back a response only when the first answer was not an
    error: no answer that follows a login is ever returned. *)
Lemma handle_request_returns_first_answer w depth func st resp st' :
  handle_request w depth func st = (Ok resp, st') ->
  exists req,
    func (token st) = Ok req /\
    network w (trace st) req = Responded resp /\
    raise_for_status resp = false /\
    st' = record (EvRequest req (Responded resp)) st.
Proof.
  destruct depth as [|depth]; [discriminate|].
  rewrite handle_request_step.
  destruct (func (token st)) as [req|e]; [|destruct e; discriminate].
  cbn zeta. destruct (network w (trace st) req) as [r|text] eqn:Hnet; [|discriminate].
  destruct (raise_for_status r) eqn:Hraise.
  - destruct (token_is_valid r) as [[]|e]; try discriminate.
    destruct (login w _) as [[[]|e] st2]; [|discriminate].
    destruct (handle_request w depth func st2) as [[?|?] ?]; discriminate.
  - intros [= <- <-]. exists req. repeat split; assumption || reflexivity.
Qed.

(** X6: in a world that refuses every request as an invalid session and
    lets every login through, the wrapper logs in at every level of the
    recursion and ends with the interpreter's [RecursionError]. *)
Lemma relogin_at_every_level w depth func :
  (forall h req, exists r, network w h req = Responded r /\ invalid_session r = true) ->
  (forall h, exists t, auth_login w h = LoggedIn t) ->
  (forall tok, exists req, func tok = Ok req) ->
  forall st,
    fst (handle_request w depth func st) = Raise RecursionError /\
    logins_made (trace (snd (handle_request w depth func st)))
    = (logins_made (trace st) + depth)%nat.
Proof.
  intros Hnet Hlogin Hfunc.
  induction depth as [|depth IH]; intros st.
  { simpl. split; [reflexivity | lia]. }
  rewrite handle_request_step.
  destruct (Hfunc (token st)) as [req ->]. cbn zeta.
  destruct (Hnet (trace st) req) as (r & -> & Hr).
  rewrite (invalid_session_raises _ Hr).
  unfold invalid_session in Hr.
  destruct (token_is_valid r) as [[]|]; try discriminate.
  unfold login. cbn [record trace].
  destruct (Hlogin (trace st ++ [EvRequest req (Responded r)])) as [t ->].
  match goal with |- context [handle_request w depth func ?s] =>
    specialize (IH s); destruct (handle_request w depth func s) as [[?|e] st3]
  end; simpl in IH; destruct IH as [IH1 IH2]; [discriminate|].
  simpl. split; [assumption|].
  rewrite IH2. unfold logins_made. rewrite !List.filter_app, !length_app. simpl. lia.
Qed.

(** ** The wrapper: claims C1, C2, C3 and C10 *)


(** Whatever the server does, a call of the wrapper logs in once for each
    invalid-session answer it receives, no more and no less, and sends at
    most one request more than it logs in; the number of logins is bounded
    by the depth of calls left to the interpreter, not by one. *)
Lemma relogin_once_per_invalid_session w depth func st :
  exists added,
    trace (snd (handle_request w depth func st)) = trace st ++ added /\
    logins_made added = invalid_sessions_seen added /\
    (requests_sent added <= logins_made added + 1)%nat /\
    (logins_made added <= depth)%nat.
Proof.
  destruct (handle_request_trace w depth func st) as (added & Heq & Hshape & Hdepth).
  destruct (wrapper_trace_counts _ Hshape) as [Hlogins Hrequests].
  exists added. auto.
Qed.





(** C2 on the code: the stale session is refused, the login succeeds and
    the retried request is answered with status 200, yet the caller gets
    the [McmdError] decoded from the first answer; the retried call's
    response is dropped. *)
Theorem successful_retry_is_discarded :
  get denied_once package_query start
  = (Raise (McmdError (VStr "No 'Read metadata' permission on entity type 'Entity type' with id 'sys_md_EntityType'.")),
     {| token := "fresh";
        trace := [EvRequest (query_with "stale") (Responded no_read_permission);
                  EvLogin (LoggedIn "fresh");
                  EvRequest (query_with "fresh") (Responded (counted 1))] |}).
Proof. vm_compute. reflexivity. Qed.

(** C3 on the code: of a structured error payload only the message of the
    first error reaches the [McmdError]; whatever errors follow it are
    never looked at. *)
Theorem only_first_message_is_raised first more others :
  handle_json_error
    (VDict [("errors", VList (VDict (("message", first) :: more) :: others))])
  = Raise (McmdError first) /\
  fst (get rejected package_query start)
  = Raise (McmdError (VStr "Unknown entity type 'base'")).
Proof. split; [reflexivity | vm_compute; reflexivity]. Qed.

(** The sibling wrapper of [mdev/requests.py] on the same answer: it logs
    the message of every error before it exits. *)
Lemma mdev_logs_every_message :
  Mdev._handle_request rejected (query_with "stale") start
  = (Raise (SystemExit 1),
     {| token := "stale";
        trace := [EvRequest (query_with "stale") (Responded two_errors);
                  EvError (VStr "Unknown entity type 'base'");
                  EvError (VStr "Unknown attribute 'label'")] |}).
Proof. vm_compute. reflexivity. Qed.

(** C10: in every call of the wrapper, a login comes only directly after
    an answer that has status 401, a Content-Type containing
    [application/json], and a first structured error with code [DS04] and a
    message starting with [No 'Read metadata' permission]; an answer
    missing any of the four is never followed by a login. *)
Theorem login_only_after_expired_session w depth func st pre lo post :
  trace (snd (handle_request w depth func st)) = trace st ++ pre ++ EvLogin lo :: post ->
  exists pre' req r,
    pre = pre' ++ [EvRequest req (Responded r)] /\
    raise_for_status r = true /\
    session_expired r.
Proof.
  intros Heq.
  destruct (handle_request_trace w depth func st) as (added & Hadd & Hshape & _).
  rewrite Hadd in Heq. apply app_inv_head in Heq.
  destruct (wrapper_trace_login _ Hshape _ _ _ Heq) as (pre' & req & r & -> & Hr).
  exists pre', req, r.
  split; [reflexivity|]. split; [now apply invalid_session_raises|].
  now apply invalid_session_expired.
Qed.

Lemma login_only_after_expired_session_witness :
  exists pre' req r,
    [EvRequest (query_with "stale") (Responded no_read_permission)]
    = pre' ++ [EvRequest req (Responded r)] /\
    raise_for_status r = true /\
    session_expired r.
Proof.
  apply (login_only_after_expired_session denied_once 3 (get_func package_query) start
           [EvRequest (query_with "stale") (Responded no_read_permission)]
           (LoggedIn "fresh")
           [EvRequest (query_with "fresh") (Responded (counted 1))]).
  vm_compute. reflexivity.
Defined.

(** ** The resource helpers: claims C4, C5, C6 and C7 *)

Lemma append_nil_r s : s +:+ EmptyString = s.
Proof.
  induction s as [|c s IH]; [reflexivity|].
  change (String c (s +:+ EmptyString) = String c s). congruence.
Qed.

Lemma contains_suffix needle l : contains needle (l +:+ needle) = true.
Proof.
  rewrite <- (append_nil_r needle) at 2. apply contains_app.
Qed.

(** The requests one call of the wrapper sends are requests the decorated
    function builds, and the first of them is the one it builds under the
    token the call starts with. *)
Lemma handle_request_requests w depth :
  forall func st,
  exists added,
    trace (snd (handle_request w depth func st)) = trace st ++ added /\
    Forall (built_by func) added /\
    (forall req, (0 < depth)%nat -> func (token st) = Ok req ->
       exists o rest, added = EvRequest req o :: rest).
Proof.
  induction depth as [|depth IH]; intros func st.
  { exists []. simpl. rewrite app_nil_r.
    split; [reflexivity | split; [constructor | lia]]. }
  rewrite handle_request_step.
  destruct (func (token st)) as [req|e] eqn:Hfunc.
  2:{ exists []. rewrite app_nil_r.
      destruct e; simpl; (split; [reflexivity | split; [constructor | discriminate]]). }
  cbn zeta.
  assert (Hone : forall (res : result Response) o,
    exists added,
      trace (snd (res, record (EvRequest req o) st)) = trace st ++ added /\
      Forall (built_by func) added /\
      (forall req0, (0 < S depth)%nat -> Ok req = Ok req0 ->
         exists o' rest, added = EvRequest req0 o' :: rest)).
  { intros res o. exists [EvRequest req o]. simpl.
    split; [reflexivity|]. split.
    - constructor; [|constructor]. simpl. eauto.
    - intros req0 _ [= <-]. eauto. }
  destruct (network w (trace st) req) as [r|text]; [|apply Hone].
  destruct (raise_for_status r); [|apply Hone].
  destruct (token_is_valid r) as [[]|e]; try apply Hone.
  set (st1 := record (EvRequest req (Responded r)) st).
  pose proof (login_trace w st1) as Hlog.
  assert (Htok : built_by func (EvRequest req (Responded r))) by (simpl; eauto).
  destruct (login w st1) as [[[]|e] st2]; simpl in Hlog.
  - destruct (IH func st2) as (added & Hadd & Hall & _).
    exists (EvRequest req (Responded r) :: EvLogin (auth_login w (trace st1)) :: added).
    split; [|split].
    + destruct (handle_request w depth func st2) as [[resp|e] st3]; simpl in *;
        rewrite Hadd, Hlog, <- !app_assoc; reflexivity.
    + constructor; [assumption|]. constructor; [exact I | assumption].
    + intros req0 _ [= <-]. eauto.
  - exists [EvRequest req (Responded r); EvLogin (auth_login w (trace st1))].
    simpl. rewrite Hlog. simpl. rewrite <- app_assoc. simpl.
    split; [reflexivity | split].
    + constructor; [assumption|]. constructor; [exact I | constructor].
    + intros req0 _ [= <-]. eauto.
Qed.

(** C4: when the backing store answers the query [id==resource_id] on the
    resource type's entity with a total of [n], [resource_exists] returns
    true if and only if [n] is greater than 0. *)
Theorem resource_exists_iff_total_positive w resource_id resource_type st r top n :
  network w
    (trace st ++ [EvDebug ("Checking if " +:+ get_label resource_type +:+ " "
                           +:+ resource_id +:+ " exists")])
    {| method := GET;
       url := api w "rest2" +:+ get_entity_id resource_type +:+ "?q=id==" +:+ resource_id;
       headers := _get_default_headers (token st);
       data := None |}
  = Responded r ->
  raise_for_status r = false ->
  body r = Some (VDict top) ->
  dict_get "total" top = Some (VInt n) ->
  exists found st',
    resource_exists w resource_id resource_type st = (Ok found, st') /\
    (found = true <-> 0 < n).
Proof.
  intros Hnet Hstatus Hbody Htotal.
  exists (0 <? n). eexists. split; [|apply Z.ltb_lt].
  unfold resource_exists, log_debug, get, request.
  unfold bind at 1. unfold bind at 1.
  rewrite handle_request_step.
  cbn [get_func token trace record]. cbn zeta. cbn [record trace token].
  rewrite Hnet, Hstatus.
  unfold bind, lift, ret, json, py_getitem, py_int.
  rewrite Hbody, Htotal. reflexivity.
Qed.

Lemma resource_exists_iff_total_positive_witness :
  exists found st',
    resource_exists (backend 3) "base" PACKAGE start = (Ok found, st') /\
    (found = true <-> 0 < 3).
Proof.
  apply (resource_exists_iff_total_positive (backend 3) "base" PACKAGE start
           (counted 3)
           [("href", VStr "/api/v2/sys_md_Package"); ("start", VInt 0);
            ("num", VInt 100); ("total", VInt 3); ("items", VList [])]
           3);
    reflexivity.
Defined.

(** C5: [ensure_resource_exists] raises its error exactly when
    [resource_exists] returns false, and the message holds the label of the
    resource type and the identifier; when [resource_exists] returns true it
    returns without raising, and an error of [resource_exists] itself
    passes through as it is. *)
Theorem ensure_resource_exists_raises_iff_absent w resource_id resource_type st :
  ensure_resource_exists w resource_id resource_type st
  = match resource_exists w resource_id resource_type st with
    | (Ok true, st') => (Ok tt, st')
    | (Ok false, st') =>
        (Raise (McmdError (VStr ("No " +:+ get_label resource_type
                                 +:+ " found with id " +:+ resource_id))), st')
    | (Raise e, st') => (Raise e, st')
    end /\
  contains (get_label resource_type)
    ("No " +:+ get_label resource_type +:+ " found with id " +:+ resource_id) = true /\
  contains resource_id
    ("No " +:+ get_label resource_type +:+ " found with id " +:+ resource_id) = true.
Proof.
  split; [|split].
  - unfold ensure_resource_exists. unfold bind at 1.
    destruct (resource_exists w resource_id resource_type st) as [[[]|e] st'];
      reflexivity.
  - apply contains_app.
  - destruct resource_type.
    + apply (contains_suffix resource_id "No Entity Type found with id ").
    + apply (contains_suffix resource_id "No Stylesheet found with id ").
    + apply (contains_suffix resource_id "No Package found with id ").
    + apply (contains_suffix resource_id "No Plugin found with id ").
Qed.

Lemma radio_is_not_a_principal_field identifier :
  "radio-" +:+ identifier <> "username" /\ "radio-" +:+ identifier <> "rolename".
Proof. split; discriminate. Qed.

Lemma grant_func_role w principal_name resource_type identifier permission tok req :
  grant_func w (Member ROLE) principal_name resource_type identifier permission tok = Ok req ->
  form_field req "rolename" = Some (upper w principal_name) /\
  form_field req "username" = None /\
  form_field req ("radio-" +:+ identifier) = Some permission.
Proof.
  destruct (radio_is_not_a_principal_field identifier) as [Hu Hr].
  intros [= <-]. unfold form_field. cbn [data].
  rewrite lookup_insert_eq, !lookup_insert_ne, lookup_singleton_eq, lookup_singleton_ne;
    try done.
Qed.

Lemma grant_func_user w principal_name resource_type identifier permission tok req :
  grant_func w (Member USER) principal_name resource_type identifier permission tok = Ok req ->
  form_field req "username" = Some principal_name /\
  form_field req "rolename" = None /\
  form_field req ("radio-" +:+ identifier) = Some permission.
Proof.
  destruct (radio_is_not_a_principal_field identifier) as [Hu Hr].
  intros [= <-]. unfold form_field. cbn [data].
  rewrite lookup_insert_eq, !lookup_insert_ne, lookup_singleton_eq, lookup_singleton_ne;
    try done.
Qed.

(** C6: every request [grant] sends for a ROLE principal, and it sends at
    least one, carries the upper-cased name, what [str.upper] gives for
    it, in the form field [rolename] and has no [username]; for a USER
    principal it carries the name as it is in [username] and has no
    [rolename].  [curator] becomes [CURATOR]. *)
Theorem grant_names_principal_by_type w principal_name resource_type identifier permission st :
  (exists req o rest,
     trace (snd (grant w (Member ROLE) principal_name resource_type identifier permission st))
     = trace st ++ EvRequest req o :: rest /\
     Forall (fun ev => forall req' o', ev = EvRequest req' o' ->
               form_field req' "rolename" = Some (upper w principal_name) /\
               form_field req' "username" = None)
            (EvRequest req o :: rest)) /\
  (exists req o rest,
     trace (snd (grant w (Member USER) principal_name resource_type identifier permission st))
     = trace st ++ EvRequest req o :: rest /\
     Forall (fun ev => forall req' o', ev = EvRequest req' o' ->
               form_field req' "username" = Some principal_name /\
               form_field req' "rolename" = None)
            (EvRequest req o :: rest)) /\
  upper w "curator" = "CURATOR".
Proof.
  split; [|split; [|reflexivity]]; unfold grant, request.
  - destruct (handle_request_requests w (S (recursion_limit w))
                (grant_func w (Member ROLE) principal_name resource_type identifier permission) st)
      as (added & Heq & Hall & Hfirst).
    destruct (Hfirst _ ltac:(lia) eq_refl) as (o & rest & ->).
    eexists _, o, rest. split; [exact Heq|].
    eapply Forall_impl; [exact Hall|].
    intros ev Hev req' o' ->. destruct Hev as [tok Htok].
    apply grant_func_role in Htok. tauto.
  - destruct (handle_request_requests w (S (recursion_limit w))
                (grant_func w (Member USER) principal_name resource_type identifier permission) st)
      as (added & Heq & Hall & Hfirst).
    destruct (Hfirst _ ltac:(lia) eq_refl) as (o & rest & ->).
    eexists _, o, rest. split; [exact Heq|].
    eapply Forall_impl; [exact Hall|].
    intros ev Hev req' o' ->. destruct Hev as [tok Htok].
    apply grant_func_user in Htok. tauto.
Qed.

(** C7: with a principal type that is neither USER nor ROLE, [grant] fails
    with the error for an unknown principal type and leaves the state as it
    found it: no request is sent, no login made, the token kept. *)
Theorem grant_rejects_unknown_principal_type
    w shown principal_name resource_type identifier permission st :
  grant w (Other shown) principal_name resource_type identifier permission st
  = (Raise (McmdError (VStr ("Unknown principal type: " +:+ shown))), st).
Proof.
  unfold grant, request. rewrite handle_request_step. reflexivity.
Qed.

(** ** The script runners: claims C8 and C9 *)

Lemma dispatched_app h1 h2 : dispatched (h1 ++ h2) = dispatched h1 ++ dispatched h2.
Proof.
  induction h1 as [|ev h1 IH]; [reflexivity|].
  destruct ev; simpl; rewrite IH; reflexivity.
Qed.

Lemma mcmd_run_lines_app w func flag l1 l2 :
  forall st,
    Mcmd.run_lines w func flag (l1 ++ l2) st
    = (Mcmd.run_lines w func flag l1 ;;; Mcmd.run_lines w func flag l2) st.
Proof.
  induction l1 as [|line l1 IH]; intros st; [reflexivity|].
  cbn [app Mcmd.run_lines]. unfold bind, lift, raise.
  destruct (parse_args w (split_space line)) as [a|e]; [|reflexivity].
  destruct (String.eqb (command (set_arg_string a line)) "run"); [reflexivity|].
  destruct (func (set_arg_string a line) flag st) as [[[]|e] st1]; [|reflexivity].
  rewrite IH. reflexivity.
Qed.

Lemma mdev_run_lines_app w execute flag l1 l2 :
  forall st,
    Mdev.run_lines w execute flag (l1 ++ l2) st
    = (Mdev.run_lines w execute flag l1 ;;; Mdev.run_lines w execute flag l2) st.
Proof.
  induction l1 as [|line l1 IH]; intros st; [reflexivity|].
  cbn [app Mdev.run_lines].
  unfold bind, lift, raise, Mdev.log_error, Mdev.history_write.
  destruct (parse_args w (split_space line)) as [a|e]; [|reflexivity].
  destruct (String.eqb (command a) "run").
  - destruct flag; [reflexivity | rewrite IH; reflexivity].
  - destruct (execute a flag _) as [[[]|e] st1]; [|reflexivity].
    rewrite IH. reflexivity.
Qed.

Lemma set_arg_string_same a : set_arg_string a (arg_string a) = a.
Proof. now destruct a. Qed.

(** C8, as stated, fails on the code: under [--ignore-errors] the runner of
    [mdev/__main__.py] logs the nested [run] line, passes over it and
    dispatches the line after it; the run ends without an error. *)
Lemma mdev_ignore_errors_passes_nested_run :
  fst (Mdev.run nested (dispatch nested) (run_args true) start) = Ok tt /\
  dispatched (trace (snd (Mdev.run nested (dispatch nested) (run_args true) start)))
  = [parsed "add" "user" EmptyString] /\
  ~ fails_without_dispatch (Mdev.run nested (dispatch nested) (run_args true) start) start.
Proof.
  split; [vm_compute; reflexivity|]. split; [vm_compute; reflexivity|].
  intros [[e He] _]. vm_compute in He. discriminate.
Qed.

(** C8, amended: when a line of the script parses to the [run] command,
    the runner of [mcmd/commands/run.py] runs the lines before it and then
    raises its error at that line, whatever [--ignore-errors] says: the run
    ends in an error and nothing after the line is dispatched.  The runner
    of [mdev/__main__.py] logs the error at that line and then exits only
    without [--ignore-errors]; with it, it goes on with the lines after. *)
Theorem nested_run_line w func args before raw after a st :
  read_script w (script args) = Lines (before ++ raw :: after) ->
  parse_args w (split_space (rstrip_newline raw)) = Ok a ->
  command a = "run" ->
  Mcmd.run w func args st
  = (Mcmd.run_lines w func (negb (ignore_errors args)) (map rstrip_newline before) ;;;
     raise (McmdError (VStr ("Can't use the run command in a script: "
                             +:+ rstrip_newline raw)))) st /\
  (exists e, fst (Mcmd.run w func args st) = Raise e) /\
  Mdev.run w func args st
  = (Mdev.run_lines w func (negb (ignore_errors args)) (map rstrip_newline before) ;;;
     Mdev.log_error (VStr ("Can't use the run command in a script: "
                           +:+ rstrip_newline raw)) ;;;
     (if ignore_errors args
      then Mdev.run_lines w func false (map rstrip_newline after)
      else raise (SystemExit 1))) st.
Proof.
  intros Hread Hparse Hrun.
  assert (Hmcmd : Mcmd.run w func args st
    = (Mcmd.run_lines w func (negb (ignore_errors args)) (map rstrip_newline before) ;;;
       raise (McmdError (VStr ("Can't use the run command in a script: "
                               +:+ rstrip_newline raw)))) st).
  { unfold Mcmd.run. rewrite Hread, map_app, mcmd_run_lines_app.
    unfold bind at 1 2.
    destruct (Mcmd.run_lines w func _ (map rstrip_newline before) st) as [[[]|e] st1];
      [|reflexivity].
    cbn [map Mcmd.run_lines]. unfold bind, lift. rewrite Hparse.
    change (command (set_arg_string a (rstrip_newline raw))) with (command a).
    rewrite Hrun. reflexivity. }
  split; [exact Hmcmd|]. split.
  - rewrite Hmcmd. unfold bind, raise.
    destruct (Mcmd.run_lines w func _ _ st) as [[[]|e] st1]; eauto.
  - unfold Mdev.run. rewrite Hread, map_app, mdev_run_lines_app.
    unfold bind at 1 2.
    destruct (Mdev.run_lines w func _ (map rstrip_newline before) st) as [[[]|e] st1];
      [|reflexivity].
    cbn [map Mdev.run_lines]. unfold bind at 1. unfold lift. rewrite Hparse, Hrun.
    cbn [String.eqb Ascii.eqb Bool.eqb].
    destruct (ignore_errors args); reflexivity.
Qed.

Lemma nested_run_line_witness :
  fst (Mcmd.run nested (dispatch nested) (run_args true) start)
  = Raise (McmdError (VStr "Can't use the run command in a script: run other.mcmd")).
Proof.
  destruct (nested_run_line nested (dispatch nested) (run_args true)
              [] ("run other.mcmd" +:+ newline) ["add user bob" +:+ newline]
              (parsed "run" "other.mcmd" EmptyString) start
              eq_refl eq_refl eq_refl) as [H _].
  rewrite H. reflexivity.
Defined.

Lemma dispatch_unfold w args exit_on_error st :
  dispatch w args exit_on_error st
  = match run_command w (trace st) args with
    | None => (Ok tt, record (EvCommand args None) st)
    | Some msg =>
        if exit_on_error
        then (Raise (SystemExit 1), record (EvError msg) (record (EvCommand args (Some msg)) st))
        else (Ok tt, record (EvError msg) (record (EvCommand args (Some msg)) st))
    end.
Proof. unfold dispatch. now destruct (run_command w (trace st) args). Qed.

Lemma mcmd_dispatch_order w flag lines :
  forall st,
  exists k,
    dispatched (trace (snd (Mcmd.run_lines w (dispatch w) flag lines st)))
    = dispatched (trace st) ++ firstn k (script_commands w true lines).
Proof.
  induction lines as [|line rest IH]; intros st.
  { exists 0%nat. simpl. now rewrite app_nil_r. }
  cbn [Mcmd.run_lines script_commands]. unfold line_command, bind, lift, raise.
  destruct (parse_args w (split_space line)) as [a|e].
  2:{ exists 0%nat. simpl. now rewrite app_nil_r. }
  change (command (set_arg_string a line)) with (command a).
  destruct (String.eqb (command a) "run").
  { exists 0%nat. simpl. now rewrite app_nil_r. }
  rewrite dispatch_unfold.
  destruct (run_command w (trace st) (set_arg_string a line)) as [msg|].
  - destruct flag; cbv beta iota.
    + exists 1%nat. cbn [snd record trace firstn].
      rewrite !dispatched_app. simpl. now rewrite app_nil_r.
    + match goal with |- context [Mcmd.run_lines w (dispatch w) false rest ?s] =>
        destruct (IH s) as [k Hk] end.
      exists (S k). rewrite Hk. cbn [record trace firstn].
      rewrite !dispatched_app. simpl. rewrite app_nil_r, <- app_assoc. reflexivity.
  - cbv beta iota.
    match goal with |- context [Mcmd.run_lines w (dispatch w) flag rest ?s] =>
      destruct (IH s) as [k Hk] end.
    exists (S k). rewrite Hk. cbn [record trace firstn].
    rewrite !dispatched_app. simpl. rewrite <- app_assoc. reflexivity.
Qed.

Lemma mdev_dispatch_order w flag lines :
  forall st,
  exists k,
    dispatched (trace (snd (Mdev.run_lines w (dispatch w) flag lines st)))
    = dispatched (trace st) ++ firstn k (script_commands w false lines).
Proof.
  induction lines as [|line rest IH]; intros st.
  { exists 0%nat. simpl. now rewrite app_nil_r. }
  cbn [Mdev.run_lines script_commands].
  unfold line_command, bind, lift, raise, Mdev.log_error, Mdev.history_write.
  destruct (parse_args w (split_space line)) as [a|e].
  2:{ exists 0%nat. simpl. now rewrite app_nil_r. }
  destruct (String.eqb (command a) "run").
  { destruct flag; cbv beta iota.
    - exists 0%nat. cbn [snd record trace firstn].
      rewrite dispatched_app. reflexivity.
    - match goal with |- context [Mdev.run_lines w (dispatch w) false rest ?s] =>
        destruct (IH s) as [k Hk] end.
      exists k. rewrite Hk. cbn [record trace].
      rewrite dispatched_app. simpl. now rewrite app_nil_r. }
  rewrite dispatch_unfold. cbn [record trace].
  destruct (run_command w _ a) as [msg|].
  - destruct flag; cbv beta iota.
    + exists 1%nat. cbn [snd record trace firstn].
      rewrite !dispatched_app. simpl. now rewrite !app_nil_r.
    + match goal with |- context [Mdev.run_lines w (dispatch w) false rest ?s] =>
        destruct (IH s) as [k Hk] end.
      exists (S k). rewrite Hk. cbn [record trace firstn].
      rewrite !dispatched_app. simpl. rewrite !app_nil_r, <- app_assoc. reflexivity.
  - cbv beta iota.
    match goal with |- context [Mdev.run_lines w (dispatch w) flag rest ?s] =>
      destruct (IH s) as [k Hk] end.
    exists (S k). rewrite Hk. cbn [record trace firstn].
    rewrite !dispatched_app. simpl. rewrite !app_nil_r, <- app_assoc. reflexivity.
Qed.

Lemma plain_line_eqb w raw a : plain_line w raw a -> String.eqb (command a) "run" = false.
Proof. intros [_ H]. now apply String.eqb_neq. Qed.

Lemma succeeds_itself w a : succeeds w a -> forall h, run_command w h a = None.
Proof. intros H h. specialize (H h (arg_string a)). now rewrite set_arg_string_same in H. Qed.

Lemma fails_with_itself w a msg : fails_with w a msg -> forall h, run_command w h a = Some msg.
Proof. intros H h. specialize (H h (arg_string a)). now rewrite set_arg_string_same in H. Qed.

(** C9: the commands a runner dispatches are, in file order, the commands
    of the first lines of the script.  For a script of three lines of which
    the first succeeds, the second fails and the third succeeds: with
    [--ignore-errors] all three are dispatched, the third after the failure
    of the second, and the run ends well; without it the run halts at the
    second line and the third is never dispatched. *)
Theorem script_runs_in_file_order w args raw_a raw_b raw_c a b c msg st :
  read_script w (script args) = Lines [raw_a; raw_b; raw_c] ->
  plain_line w raw_a a -> plain_line w raw_b b -> plain_line w raw_c c ->
  succeeds w a -> fails_with w b msg -> succeeds w c ->
  (ignore_errors args = true ->
   fst (Mcmd.run w (dispatch w) args st) = Ok tt /\
   dispatched (trace (snd (Mcmd.run w (dispatch w) args st)))
   = dispatched (trace st)
     ++ [set_arg_string a (rstrip_newline raw_a);
         set_arg_string b (rstrip_newline raw_b);
         set_arg_string c (rstrip_newline raw_c)] /\
   fst (Mdev.run w (dispatch w) args st) = Ok tt /\
   dispatched (trace (snd (Mdev.run w (dispatch w) args st)))
   = dispatched (trace st) ++ [a; b; c]) /\
  (ignore_errors args = false ->
   fst (Mcmd.run w (dispatch w) args st) = Raise (SystemExit 1) /\
   dispatched (trace (snd (Mcmd.run w (dispatch w) args st)))
   = dispatched (trace st)
     ++ [set_arg_string a (rstrip_newline raw_a);
         set_arg_string b (rstrip_newline raw_b)] /\
   fst (Mdev.run w (dispatch w) args st) = Raise (SystemExit 1) /\
   dispatched (trace (snd (Mdev.run w (dispatch w) args st)))
   = dispatched (trace st) ++ [a; b]) /\
  (forall flag lines st0,
     (exists k,
        dispatched (trace (snd (Mcmd.run_lines w (dispatch w) flag lines st0)))
        = dispatched (trace st0) ++ firstn k (script_commands w true lines)) /\
     (exists k,
        dispatched (trace (snd (Mdev.run_lines w (dispatch w) flag lines st0)))
        = dispatched (trace st0) ++ firstn k (script_commands w false lines))).
Proof.
  intros Hread Ha Hb Hc Hsa Hfb Hsc.
  pose proof (plain_line_eqb _ _ _ Ha) as Hna.
  pose proof (plain_line_eqb _ _ _ Hb) as Hnb.
  pose proof (plain_line_eqb _ _ _ Hc) as Hnc.
  destruct Ha as [Ha _], Hb as [Hb _], Hc as [Hc _].
  assert (Hmcmd : forall flag,
    Mcmd.run_lines w (dispatch w) flag (map rstrip_newline [raw_a; raw_b; raw_c]) st
    = if flag
      then (Raise (SystemExit 1),
            record (EvError msg)
              (record (EvCommand (set_arg_string b (rstrip_newline raw_b)) (Some msg))
                 (record (EvCommand (set_arg_string a (rstrip_newline raw_a)) None) st)))
      else (Ok tt,
            record (EvCommand (set_arg_string c (rstrip_newline raw_c)) None)
              (record (EvError msg)
                 (record (EvCommand (set_arg_string b (rstrip_newline raw_b)) (Some msg))
                    (record (EvCommand (set_arg_string a (rstrip_newline raw_a)) None) st))))).
  { intros flag. cbn [map Mcmd.run_lines]. unfold bind, lift, ret.
    rewrite Ha, Hb, Hc.
    change (command (set_arg_string a (rstrip_newline raw_a))) with (command a).
    change (command (set_arg_string b (rstrip_newline raw_b))) with (command b).
    change (command (set_arg_string c (rstrip_newline raw_c))) with (command c).
    rewrite Hna, Hnb, Hnc.
    rewrite dispatch_unfold, Hsa. cbv beta iota.
    rewrite dispatch_unfold, Hfb.
    destruct flag; cbv beta iota; [reflexivity|].
    rewrite dispatch_unfold, Hsc. reflexivity. }
  assert (Hmdev : forall flag,
    Mdev.run_lines w (dispatch w) flag (map rstrip_newline [raw_a; raw_b; raw_c]) st
    = if flag
      then (Raise (SystemExit 1),
            record (EvError msg)
              (record (EvCommand b (Some msg))
                 (record (EvHistory (rstrip_newline raw_b))
                    (record (EvCommand a None)
                       (record (EvHistory (rstrip_newline raw_a)) st)))))
      else (Ok tt,
            record (EvCommand c None)
              (record (EvHistory (rstrip_newline raw_c))
                 (record (EvError msg)
                    (record (EvCommand b (Some msg))
                       (record (EvHistory (rstrip_newline raw_b))
                          (record (EvCommand a None)
                             (record (EvHistory (rstrip_newline raw_a)) st)))))))).
  { intros flag. cbn [map Mdev.run_lines].
    unfold bind, lift, ret, Mdev.history_write.
    rewrite Ha, Hb, Hc, Hna, Hnb, Hnc.
    rewrite dispatch_unfold, (succeeds_itself _ _ Hsa). cbv beta iota.
    rewrite dispatch_unfold, (fails_with_itself _ _ _ Hfb).
    destruct flag; cbv beta iota; [reflexivity|].
    rewrite dispatch_unfold, (succeeds_itself _ _ Hsc). reflexivity. }
  split; [|split].
  - intros Hflag. unfold Mcmd.run, Mdev.run.
    rewrite Hread, Hflag, Hmcmd, Hmdev. cbn [negb fst snd record trace].
    rewrite !dispatched_app. simpl. rewrite !app_nil_r, <- !app_assoc.
    repeat split; reflexivity.
  - intros Hflag. unfold Mcmd.run, Mdev.run.
    rewrite Hread, Hflag, Hmcmd, Hmdev. cbn [negb fst snd record trace].
    rewrite !dispatched_app. simpl. rewrite !app_nil_r, <- !app_assoc.
    repeat split; reflexivity.
  - intros flag lines st0. split;
      [apply mcmd_dispatch_order | apply mdev_dispatch_order].
Qed.

Lemma script_runs_in_file_order_witness :
  map command
    (dispatched (trace (snd (Mcmd.run three_lines (dispatch three_lines) (run_args true) start))))
  = ["add"; "delete"; "add"] /\
  map command
    (dispatched (trace (snd (Mcmd.run three_lines (dispatch three_lines) (run_args false) start))))
  = ["add"; "delete"].
Proof.
  assert (Hplain : forall raw cmd target,
            word_parser (split_space (rstrip_newline raw)) = Ok (parsed cmd target EmptyString) ->
            String.eqb cmd "run" = false ->
            plain_line three_lines raw (parsed cmd target EmptyString)).
  { intros raw cmd target Hparse Hcmd. split; [exact Hparse|].
    now apply String.eqb_neq. }
  pose proof (fun ignore =>
    script_runs_in_file_order three_lines (run_args ignore)
      ("add user bob" +:+ newline) ("delete package base" +:+ newline) "add group staff"
      (parsed "add" "user" EmptyString) (parsed "delete" "package" EmptyString)
      (parsed "add" "group" EmptyString)
      (VStr "No Package found with id base") start
      eq_refl
      (Hplain ("add user bob" +:+ newline) "add" "user" eq_refl eq_refl)
      (Hplain ("delete package base" +:+ newline) "delete" "package" eq_refl eq_refl)
      (Hplain "add group staff" "add" "group" eq_refl eq_refl)
      (fun _ _ => eq_refl) (fun _ _ => eq_refl) (fun _ _ => eq_refl)) as H.
  destruct (H true) as [Hon _]. destruct (H false) as [_ [Hoff _]].
  destruct (Hon eq_refl) as (_ & -> & _). destruct (Hoff eq_refl) as (_ & -> & _).
  split; reflexivity.
Defined.

(** * Further properties of the code *)

(** ** The request wrapper *)

Lemma not_401_token_is_valid r : status_code r <> 401 -> token_is_valid r = Ok true.
Proof.
  intros H. unfold token_is_valid.
  destruct (status_code r =? 401) eqn:E; [|reflexivity].
  apply Z.eqb_eq in E. contradiction.
Qed.

Lemma not_json_token_is_valid r : is_json r = false -> token_is_valid r = Ok true.
Proof.
  intros H. unfold token_is_valid. rewrite H, andb_false_r. reflexivity.
Qed.

(** X1: the wrapper hands a response back exactly when the first answer
    carries no error status; it has then sent that one request, made no
    login and kept the token.  The answer to a retry is never returned. *)
Theorem wrapper_returns_first_answer_only w depth func st resp st' :
  handle_request w (S depth) func st = (Ok resp, st') <->
  exists req,
    func (token st) = Ok req /\
    network w (trace st) req = Responded resp /\
    raise_for_status resp = false /\
    st' = {| token := token st;
             trace := trace st ++ [EvRequest req (Responded resp)] |}.
Proof.
  split.
  - intros H. apply handle_request_returns_first_answer in H.
    destruct H as (req & H1 & H2 & H3 & ->). exists req. auto.
  - intros (req & Hfunc & Hnet & Hstatus & ->).
    rewrite handle_request_step, Hfunc. cbn zeta. rewrite Hnet, Hstatus. reflexivity.
Qed.

(** X2: a transport failure of the one request is turned into an
    [McmdError] with the same text; nothing is retried and no login is
    made. *)
Theorem transport_failure_becomes_mcmd_error w depth func st req text :
  func (token st) = Ok req ->
  network w (trace st) req = Failed text ->
  handle_request w (S depth) func st
  = (Raise (McmdError (VStr text)),
     {| token := token st; trace := trace st ++ [EvRequest req (Failed text)] |}).
Proof.
  intros Hfunc Hnet. rewrite handle_request_step, Hfunc. cbn zeta.
  rewrite Hnet. reflexivity.
Qed.

Lemma transport_failure_becomes_mcmd_error_witness :
  get unreachable package_query start
  = (Raise (McmdError (VStr "Connection refused")),
     {| token := "stale";
        trace := [EvRequest (query_with "stale") (Failed "Connection refused")] |}).
Proof.
  exact (transport_failure_becomes_mcmd_error unreachable _ (get_func package_query)
           start (query_with "stale") "Connection refused" eq_refl eq_refl).
Defined.

(** X3: a 401 with a JSON Content-Type whose body is an object without
    [errors] makes the wrapper end in a [KeyError], raised while it looks
    for the invalid session: the error is not decoded and no [McmdError]
    reaches the caller. *)
Theorem unauthorized_without_errors_raises_key_error w depth func st req r top :
  func (token st) = Ok req ->
  network w (trace st) req = Responded r ->
  status_code r = 401 ->
  is_json r = true ->
  body r = Some (VDict top) ->
  dict_get "errors" top = None ->
  handle_request w (S depth) func st
  = (Raise KeyError,
     {| token := token st; trace := trace st ++ [EvRequest req (Responded r)] |}).
Proof.
  intros Hfunc Hnet Hs Hj Hb He. rewrite handle_request_step, Hfunc. cbn zeta.
  rewrite Hnet. unfold raise_for_status, token_is_valid, json, py_getitem.
  rewrite Hs, Hj, Hb, He. reflexivity.
Qed.

Lemma unauthorized_without_errors_raises_key_error_witness :
  get (always bad_credentials) package_query start
  = (Raise KeyError,
     {| token := "stale";
        trace := [EvRequest (query_with "stale") (Responded bad_credentials)] |}).
Proof.
  exact (unauthorized_without_errors_raises_key_error (always bad_credentials) _
           (get_func package_query) start (query_with "stale") bad_credentials
           [("errorMessage", VStr "Bad credentials")]
           eq_refl eq_refl eq_refl eq_refl eq_refl eq_refl).
Defined.

(** X4: when the login after an invalid session fails, the wrapper ends
    with the login's own error after one request and one login; the
    decorated function is not called again. *)
Theorem failed_login_ends_the_call w depth func st req r e :
  func (token st) = Ok req ->
  network w (trace st) req = Responded r ->
  invalid_session r = true ->
  auth_login w (trace st ++ [EvRequest req (Responded r)]) = LoginFailed e ->
  handle_request w (S depth) func st
  = (Raise e,
     {| token := token st;
        trace := (trace st ++ [EvRequest req (Responded r)]) ++ [EvLogin (LoginFailed e)] |}).
Proof.
  intros Hfunc Hnet Hr Hlogin. rewrite handle_request_step, Hfunc. cbn zeta.
  rewrite Hnet, (invalid_session_raises _ Hr).
  unfold invalid_session in Hr.
  destruct (token_is_valid r) as [[]|]; try discriminate.
  unfold login. cbn [record trace token]. rewrite Hlogin. reflexivity.
Qed.

Lemma failed_login_ends_the_call_witness :
  get locked_out package_query start
  = (Raise (McmdError (VStr "Unknown username or password")),
     {| token := "stale";
        trace := [EvRequest (query_with "stale") (Responded no_read_permission);
                  EvLogin (LoginFailed (McmdError (VStr "Unknown username or password")))] |}).
Proof.
  exact (failed_login_ends_the_call locked_out _ (get_func package_query) start
           (query_with "stale") no_read_permission
           (McmdError (VStr "Unknown username or password"))
           eq_refl eq_refl eq_refl eq_refl).
Defined.

(** X5: after an invalid session and a login that went through, the
    decorated function is called again under the new token: the retried
    request is the one it builds from the token the login returned. *)
Theorem retry_is_built_with_new_token w depth func st req r t req' :
  func (token st) = Ok req ->
  network w (trace st) req = Responded r ->
  invalid_session r = true ->
  auth_login w (trace st ++ [EvRequest req (Responded r)]) = LoggedIn t ->
  func t = Ok req' ->
  exists o rest,
    trace (snd (handle_request w (S (S depth)) func st))
    = trace st ++ EvRequest req (Responded r) :: EvLogin (LoggedIn t)
                  :: EvRequest req' o :: rest.
Proof.
  intros Hfunc Hnet Hr Hlogin Hfunc'. rewrite handle_request_step, Hfunc. cbn zeta.
  rewrite Hnet, (invalid_session_raises _ Hr).
  unfold invalid_session in Hr.
  destruct (token_is_valid r) as [[]|]; try discriminate.
  unfold login. cbn [record trace token]. rewrite Hlogin.
  match goal with |- context [handle_request w (S depth) func ?s] =>
    destruct (handle_request_requests w (S depth) func s) as (added & Heq & _ & Hfirst);
    destruct (Hfirst req' ltac:(lia) Hfunc') as (o & rest & ->);
    exists o, rest;
    destruct (handle_request w (S depth) func s) as [[?|?] st3]
  end; cbn [snd trace] in *; rewrite Heq, <- !app_assoc; reflexivity.
Qed.

Lemma retry_is_built_with_new_token_witness :
  exists o rest,
    trace (snd (handle_request denied_once 2 (get_func package_query) start))
    = [] ++ EvRequest (query_with "stale") (Responded no_read_permission)
            :: EvLogin (LoggedIn "fresh")
            :: EvRequest (query_with "fresh") o :: rest.
Proof.
  exact (retry_is_built_with_new_token denied_once 0 (get_func package_query) start
           (query_with "stale") no_read_permission "fresh" (query_with "fresh")
           eq_refl eq_refl eq_refl eq_refl eq_refl).
Defined.

Lemma relogin_at_every_level_witness :
  fst (handle_request (always no_read_permission) 5 (get_func package_query) start)
  = Raise RecursionError /\
  logins_made (trace (snd (handle_request (always no_read_permission) 5
                             (get_func package_query) start)))
  = (logins_made (trace start) + 5)%nat.
Proof.
  apply (relogin_at_every_level (always no_read_permission) 5 (get_func package_query)).
  - intros h req. exists no_read_permission.
    split; [|reflexivity]. simpl. now destruct (requests_sent h).
  - intros h. exists "fresh". reflexivity.
  - intros tok. eexists. reflexivity.
Defined.

Lemma dict_get_none_existsb k items :
  dict_get k items = None ->
  existsb (fun kv : string * value => String.eqb (fst kv) k) items = false.
Proof.
  induction items as [|[k' v'] rest IH]; simpl; [reflexivity|].
  destruct (String.eqb k' k); simpl; [discriminate | exact IH].
Qed.

(** X7: an error answer whose JSON body holds an empty list of errors is
    reported with the text of the HTTP error itself: the empty loop raises
    nothing and the wrapper falls through to its last [raise]. *)
Theorem empty_error_list_falls_back_to_status_text w depth func st req r top :
  func (token st) = Ok req ->
  network w (trace st) req = Responded r ->
  raise_for_status r = true ->
  status_code r <> 401 ->
  is_json r = true ->
  body r = Some (VDict top) ->
  dict_get "errors" top = Some (VList []) ->
  handle_request w (S depth) func st
  = (Raise (McmdError (VStr (error_text r))),
     {| token := token st; trace := trace st ++ [EvRequest req (Responded r)] |}).
Proof.
  intros Hfunc Hnet Hraise Hs Hj Hb He. rewrite handle_request_step, Hfunc. cbn zeta.
  rewrite Hnet, Hraise, (not_401_token_is_valid _ Hs).
  unfold decoded_error, json, handle_json_error, py_contains, py_getitem.
  rewrite Hj, Hb, (dict_get_existsb _ _ _ He), He. reflexivity.
Qed.

Lemma empty_error_list_falls_back_to_status_text_witness :
  fst (get (always no_errors) package_query start)
  = Raise (McmdError (VStr "500 Server Error:  for url: http://localhost:8080/api/v2/sys_md_Package?q=id==base")).
Proof.
  unfold get, request.
  rewrite (empty_error_list_falls_back_to_status_text (always no_errors) _
             (get_func package_query) start (query_with "stale") no_errors
             [("errors", VList [])] eq_refl eq_refl eq_refl ltac:(discriminate)
             eq_refl eq_refl eq_refl).
  reflexivity.
Defined.

(** X8: an error answer (other than a 401) whose JSON body has no [errors]
    but an [errorMessage] is reported with that message. *)
Theorem error_message_payload_is_raised w depth func st req r top message :
  func (token st) = Ok req ->
  network w (trace st) req = Responded r ->
  raise_for_status r = true ->
  status_code r <> 401 ->
  is_json r = true ->
  body r = Some (VDict top) ->
  dict_get "errors" top = None ->
  dict_get "errorMessage" top = Some message ->
  handle_request w (S depth) func st
  = (Raise (McmdError message),
     {| token := token st; trace := trace st ++ [EvRequest req (Responded r)] |}).
Proof.
  intros Hfunc Hnet Hraise Hs Hj Hb He Hm. rewrite handle_request_step, Hfunc. cbn zeta.
  rewrite Hnet, Hraise, (not_401_token_is_valid _ Hs).
  unfold decoded_error, json, handle_json_error, py_contains, py_getitem.
  rewrite Hj, Hb, (dict_get_none_existsb _ _ He), (dict_get_existsb _ _ _ Hm), Hm.
  reflexivity.
Qed.

Lemma error_message_payload_is_raised_witness :
  fst (get (always legacy_error) package_query start)
  = Raise (McmdError (VStr "Invalid query")).
Proof.
  unfold get, request.
  rewrite (error_message_payload_is_raised (always legacy_error) _
             (get_func package_query) start (query_with "stale") legacy_error
             [("errorMessage", VStr "Invalid query")] (VStr "Invalid query")
             eq_refl eq_refl eq_refl ltac:(discriminate) eq_refl eq_refl eq_refl eq_refl).
  reflexivity.
Defined.

(** X9: an error answer whose Content-Type is missing or does not contain
    [application/json] is reported with the text of the HTTP error, whatever
    its status and body; the body is not read and no login is made, also on
    a 401. *)
Theorem non_json_error_is_reported_raw w depth func st req r :
  func (token st) = Ok req ->
  network w (trace st) req = Responded r ->
  raise_for_status r = true ->
  is_json r = false ->
  handle_request w (S depth) func st
  = (Raise (McmdError (VStr (error_text r))),
     {| token := token st; trace := trace st ++ [EvRequest req (Responded r)] |}).
Proof.
  intros Hfunc Hnet Hraise Hj. rewrite handle_request_step, Hfunc. cbn zeta.
  rewrite Hnet, Hraise, (not_json_token_is_valid _ Hj).
  unfold decoded_error. rewrite Hj. reflexivity.
Qed.

Lemma non_json_error_is_reported_raw_witness :
  fst (get (always bad_gateway) package_query start)
  = Raise (McmdError (VStr "502 Server Error: Bad Gateway for url: http://localhost:8080/api/v2/sys_md_Package?q=id==base")).
Proof.
  unfold get, request.
  rewrite (non_json_error_is_reported_raw (always bad_gateway) _
             (get_func package_query) start (query_with "stale") bad_gateway
             eq_refl eq_refl eq_refl eq_refl).
  reflexivity.
Defined.

Lemma current_token_app h1 h2 tok :
  current_token (h1 ++ h2) tok = current_token h2 (current_token h1 tok).
Proof.
  revert tok. induction h1 as [|ev h1 IH]; intros tok; [reflexivity|].
  destruct ev as [| [t|e] | | | |]; simpl; apply IH.
Qed.

(** X10: the session token changes only through a login: after any call
    of the wrapper the token is the one of the last login of that call that
    went through, and the token the call started with when there was
    none. *)
Theorem token_follows_last_login w depth :
  forall func st,
  exists added,
    trace (snd (handle_request w depth func st)) = trace st ++ added /\
    token (snd (handle_request w depth func st)) = current_token added (token st).
Proof.
  induction depth as [|depth IH]; intros func st.
  { exists []. simpl. now rewrite app_nil_r. }
  rewrite handle_request_step.
  destruct (func (token st)) as [req|e].
  2:{ exists []. rewrite app_nil_r. now destruct e. }
  cbn zeta.
  assert (Hone : forall (res : result Response) o,
    exists added,
      trace (snd (res, record (EvRequest req o) st)) = trace st ++ added /\
      token (snd (res, record (EvRequest req o) st)) = current_token added (token st)).
  { intros res o. exists [EvRequest req o]. split; reflexivity. }
  destruct (network w (trace st) req) as [r|text]; [|apply Hone].
  destruct (raise_for_status r); [|apply Hone].
  destruct (token_is_valid r) as [[]|e]; try apply Hone.
  unfold login. cbn [record trace token].
  destruct (auth_login w _) as [t|e] eqn:Hlogin.
  - match goal with |- context [handle_request w depth func ?s] =>
      destruct (IH func s) as (added & Heq & Htok);
      destruct (handle_request w depth func s) as [[?|?] st3]
    end; cbn [snd trace token] in *;
      exists (EvRequest req (Responded r) :: EvLogin (LoggedIn t) :: added);
      rewrite Heq, Htok, <- !app_assoc; split; reflexivity.
  - exists [EvRequest req (Responded r); EvLogin (LoginFailed e)].
    cbn [snd trace token record]. rewrite <- app_assoc. split; reflexivity.
Qed.

(** ** The resource types *)

(** X11: each of the three attributes of a resource type tells the four
    types apart: no two types share an entity id, a path segment or a
    label. *)
Theorem resource_type_attributes_are_distinct r1 r2 :
  (get_entity_id r1 = get_entity_id r2 <-> r1 = r2) /\
  (get_resource_name r1 = get_resource_name r2 <-> r1 = r2) /\
  (get_label r1 = get_label r2 <-> r1 = r2).
Proof.
  repeat split; intros H; subst; try reflexivity;
    destruct r1, r2; try reflexivity; discriminate H.
Qed.

(** X12: [of_label] finds a resource type back from its own label for the
    entity type, the package and the plugin, but not for the theme: its
    label is [Stylesheet] while the member is named [THEME], so the lookup
    by name ends in a [KeyError]. *)
Theorem of_label_of_own_label w r :
  of_label w (get_label r)
  = match r with
    | THEME => Raise KeyError
    | _ => Ok r
    end.
Proof. destruct r; reflexivity. Qed.

Lemma upper_blank_to_underscore c :
  upper_ascii (blank_to_underscore (upper_ascii c)) = upper_ascii (blank_to_underscore c).
Proof. destruct c as [[] [] [] [] [] [] [] []]; reflexivity. Qed.

Lemma blank_to_underscore_idem c :
  blank_to_underscore (blank_to_underscore c) = blank_to_underscore c.
Proof. destruct c as [[] [] [] [] [] [] [] []]; reflexivity. Qed.

Lemma ascii_upper_replace_blanks label :
  ascii_upper (replace_blanks (ascii_upper label)) = ascii_upper (replace_blanks label).
Proof.
  induction label as [|c label IH]; [reflexivity|].
  cbn [ascii_upper replace_blanks]. now rewrite upper_blank_to_underscore, IH.
Qed.

Lemma replace_blanks_idem label : replace_blanks (replace_blanks label) = replace_blanks label.
Proof.
  induction label as [|c label IH]; [reflexivity|].
  cbn [replace_blanks]. now rewrite blank_to_underscore_idem, IH.
Qed.

Lemma blank_to_underscore_stays_ascii c :
  (nat_of_ascii (blank_to_underscore c) <? 128)%nat = (nat_of_ascii c <? 128)%nat.
Proof. destruct c as [[] [] [] [] [] [] [] []]; reflexivity. Qed.

Lemma is_ascii_replace_blanks label : is_ascii (replace_blanks label) = is_ascii label.
Proof.
  induction label as [|c label IH]; [reflexivity|].
  cbn [replace_blanks is_ascii]. now rewrite blank_to_underscore_stays_ascii, IH.
Qed.

(** X13: for a label of ASCII text, [of_label] does not tell upper case
    from lower case: the label and its upper-cased form give the same
    result.  For any label it does not tell a blank from an underscore: the
    label and its form with underscores for blanks give the same result. *)
Theorem of_label_ignores_case_and_blanks w label :
  is_ascii label = true ->
  of_label w (upper w label) = of_label w label /\
  (forall other, of_label w (replace_blanks other) = of_label w other).
Proof.
  intros Hascii. unfold of_label. split.
  - f_equal. rewrite (upper_of_ascii w label Hascii).
    rewrite !upper_of_ascii.
    + apply ascii_upper_replace_blanks.
    + now rewrite is_ascii_replace_blanks.
    + now rewrite is_ascii_replace_blanks, is_ascii_ascii_upper.
  - intros other. now rewrite replace_blanks_idem.
Qed.

Lemma of_label_ignores_case_and_blanks_witness :
  of_label (backend 0) (upper (backend 0) "entity type") = of_label (backend 0) "entity type" /\
  (forall other,
     of_label (backend 0) (replace_blanks other) = of_label (backend 0) other).
Proof.
  apply (of_label_ignores_case_and_blanks (backend 0) "entity type"). reflexivity.
Defined.

(** ** The existence checks *)

Lemma counting_tail w (c : M Response) st :
  (response <- c ;;
   response_json <- lift (json response) ;;
   total <- lift (py_getitem response_json "total") ;;
   n <- lift (py_int w total) ;;
   ret (0 <? n)) st
  = match c st with
    | (Ok response, st1) => (reported_matches w response, st1)
    | (Raise e, st1) => (Raise e, st1)
    end.
Proof.
  unfold bind, lift, ret, reported_matches.
  destruct (c st) as [[response|e] st1]; [|reflexivity].
  destruct (json response) as [j|e]; [|reflexivity].
  destruct (py_getitem j "total") as [total|e]; [|reflexivity].
  destruct (py_int w total); reflexivity.
Qed.

(** X14: [one_resource_exists] asks for [id=in=(...)] with the identifiers
    joined by commas, the empty list included, and returns true if and only
    if the total the backing store reports for that query is greater
    than 0. *)
Theorem one_resource_exists_iff_total_positive w resources resource_type st r top n :
  network w
    (trace st ++ [EvDebug ("Checking if one of [" +:+ join "," resources
                           +:+ "] exists in [" +:+ get_label resource_type +:+ "]")])
    {| method := GET;
       url := api w "rest2" +:+ get_entity_id resource_type
              +:+ "?q=id=in=(" +:+ join "," resources +:+ ")";
       headers := _get_default_headers (token st);
       data := None |}
  = Responded r ->
  raise_for_status r = false ->
  body r = Some (VDict top) ->
  dict_get "total" top = Some (VInt n) ->
  exists found st',
    one_resource_exists w resources resource_type st = (Ok found, st') /\
    (found = true <-> 0 < n).
Proof.
  intros Hnet Hstatus Hbody Htotal.
  exists (0 <? n). eexists. split; [|apply Z.ltb_lt].
  unfold one_resource_exists, log_debug. unfold bind at 1.
  rewrite counting_tail. unfold get, request.
  rewrite handle_request_step.
  cbn [get_func token trace record]. cbn zeta. cbn [record trace token].
  rewrite Hnet, Hstatus.
  unfold reported_matches, json, py_getitem, py_int.
  rewrite Hbody, Htotal. reflexivity.
Qed.

Lemma one_resource_exists_iff_total_positive_witness :
  exists found st',
    one_resource_exists (backend 2) ["base"; "sys"] PACKAGE start = (Ok found, st') /\
    (found = true <-> 0 < 2).
Proof.
  apply (one_resource_exists_iff_total_positive (backend 2) ["base"; "sys"] PACKAGE start
           (counted 2)
           [("href", VStr "/api/v2/sys_md_Package"); ("start", VInt 0);
            ("num", VInt 100); ("total", VInt 2); ("items", VList [])]
           2);
    reflexivity.
Defined.

(** X17: [resource_exists] returns a value only when its one request was
    answered without an error status: the state then holds the debug line
    and that request and nothing else, the token is the one it started
    with, and the value is whether the reported total is greater than 0.
    It never returns after a login. *)
Theorem resource_exists_returns_only_first_answer w resource_id resource_type st found st' :
  resource_exists w resource_id resource_type st = (Ok found, st') ->
  exists r,
    network w
      (trace st ++ [EvDebug ("Checking if " +:+ get_label resource_type +:+ " "
                             +:+ resource_id +:+ " exists")])
      {| method := GET;
         url := api w "rest2" +:+ get_entity_id resource_type +:+ "?q=id==" +:+ resource_id;
         headers := _get_default_headers (token st);
         data := None |}
    = Responded r /\
    raise_for_status r = false /\
    reported_matches w r = Ok found /\
    token st' = token st /\
    logins_made (trace st') = logins_made (trace st) /\
    requests_sent (trace st') = S (requests_sent (trace st)).
Proof.
  unfold resource_exists, log_debug. unfold bind at 1.
  rewrite counting_tail. unfold get, request.
  match goal with |- context [handle_request w ?d ?f ?s] =>
    destruct (handle_request w d f s) as [[resp|e] st1] eqn:Hcall
  end; [|discriminate].
  intros [= Hfound <-].
  apply handle_request_returns_first_answer in Hcall.
  destruct Hcall as (req & [= <-] & Hnet & Hstatus & ->).
  exists resp. cbn [record trace token] in *.
  repeat split; try assumption.
  - unfold logins_made. rewrite !List.filter_app, !length_app. simpl. lia.
  - unfold requests_sent. rewrite !List.filter_app, !length_app. simpl. lia.
Qed.

Lemma resource_exists_returns_only_first_answer_witness :
  exists r,
    network (backend 3)
      (trace start ++ [EvDebug ("Checking if " +:+ get_label PACKAGE +:+ " "
                                +:+ "base" +:+ " exists")])
      {| method := GET;
         url := api (backend 3) "rest2" +:+ get_entity_id PACKAGE +:+ "?q=id==" +:+ "base";
         headers := _get_default_headers (token start);
         data := None |}
    = Responded r /\
    raise_for_status r = false /\
    reported_matches (backend 3) r = Ok true /\
    token (snd (resource_exists (backend 3) "base" PACKAGE start)) = token start /\
    logins_made (trace (snd (resource_exists (backend 3) "base" PACKAGE start)))
    = logins_made (trace start) /\
    requests_sent (trace (snd (resource_exists (backend 3) "base" PACKAGE start)))
    = S (requests_sent (trace start)).
Proof.
  apply (resource_exists_returns_only_first_answer (backend 3) "base" PACKAGE start true).
  vm_compute. reflexivity.
Defined.

(** X18: an answer without an error status whose body has no [total]
    makes [resource_exists] end in a [KeyError]; the wrapper has already
    returned, so the error is not turned into an [McmdError]. *)
Theorem resource_exists_without_total_raises_key_error w resource_id resource_type st r top :
  network w
    (trace st ++ [EvDebug ("Checking if " +:+ get_label resource_type +:+ " "
                           +:+ resource_id +:+ " exists")])
    {| method := GET;
       url := api w "rest2" +:+ get_entity_id resource_type +:+ "?q=id==" +:+ resource_id;
       headers := _get_default_headers (token st);
       data := None |}
  = Responded r ->
  raise_for_status r = false ->
  body r = Some (VDict top) ->
  dict_get "total" top = None ->
  fst (resource_exists w resource_id resource_type st) = Raise KeyError.
Proof.
  intros Hnet Hstatus Hbody Htotal.
  unfold resource_exists, log_debug. unfold bind at 1.
  rewrite counting_tail. unfold get, request.
  rewrite handle_request_step.
  cbn [get_func token trace record]. cbn zeta. cbn [record trace token].
  rewrite Hnet, Hstatus.
  unfold reported_matches, json, py_getitem.
  rewrite Hbody, Htotal. reflexivity.
Qed.

Lemma resource_exists_without_total_raises_key_error_witness :
  fst (resource_exists (always totalless) "base" PACKAGE start) = Raise KeyError.
Proof.
  apply (resource_exists_without_total_raises_key_error (always totalless) "base" PACKAGE
           start totalless [("items", VList [])]);
    reflexivity.
Defined.

Lemma existence_check_trace w msg func st :
  forall req, func (token st) = Ok req ->
  exists o rest,
    trace (snd ((log_debug msg ;;;
                 (response <- request w func ;;
                  response_json <- lift (json response) ;;
                  total <- lift (py_getitem response_json "total") ;;
                  n <- lift (py_int w total) ;;
                  ret (0 <? n))) st))
    = trace st ++ EvDebug msg :: EvRequest req o :: rest.
Proof.
  intros req Hreq. unfold log_debug. unfold bind at 1. rewrite counting_tail.
  unfold request.
  destruct (handle_request_requests w (S (recursion_limit w)) func (record (EvDebug msg) st))
    as (added & Heq & _ & Hfirst).
  destruct (Hfirst req ltac:(lia) Hreq) as (o & rest & ->).
  exists o, rest.
  destruct (handle_request w _ func _) as [[resp|e] st1]; cbn [snd record trace] in *;
    rewrite Heq, <- app_assoc; reflexivity.
Qed.

(** X15: [role_exists] looks a role up under its upper-cased name, so
    two names with the same upper-cased form, such as [admin] and [ADMIN],
    put the same request on the wire (only the debug line keeps the name as
    given); [user_exists] looks a user up under the name exactly as
    given. *)
Theorem role_lookup_is_upper_cased w name name' st :
  upper w name' = upper w name ->
  (exists o rest o' rest',
     trace (snd (role_exists w name st))
     = trace st ++ EvDebug ("Checking if role " +:+ name +:+ " exists")
         :: EvRequest {| method := GET;
                         url := api w "rest2" +:+ "sys_sec_Role?q=name==" +:+ upper w name;
                         headers := _get_default_headers (token st);
                         data := None |} o :: rest /\
     trace (snd (role_exists w name' st))
     = trace st ++ EvDebug ("Checking if role " +:+ name' +:+ " exists")
         :: EvRequest {| method := GET;
                         url := api w "rest2" +:+ "sys_sec_Role?q=name==" +:+ upper w name;
                         headers := _get_default_headers (token st);
                         data := None |} o' :: rest') /\
  (exists o rest,
     trace (snd (user_exists w name st))
     = trace st ++ EvDebug ("Checking if user " +:+ name +:+ " exists")
         :: EvRequest {| method := GET;
                         url := api w "rest2" +:+ "sys_sec_User?q=username==" +:+ name;
                         headers := _get_default_headers (token st);
                         data := None |} o :: rest).
Proof.
  intros Hsame. split.
  - destruct (existence_check_trace w ("Checking if role " +:+ name +:+ " exists")
                (get_func (api w "rest2" +:+ "sys_sec_Role?q=name==" +:+ upper w name)) st
                _ eq_refl) as (o & rest & H).
    destruct (existence_check_trace w ("Checking if role " +:+ name' +:+ " exists")
                (get_func (api w "rest2" +:+ "sys_sec_Role?q=name==" +:+ upper w name')) st
                _ eq_refl) as (o' & rest' & H').
    rewrite Hsame in H'.
    exists o, rest, o', rest'. split; [exact H|].
    unfold role_exists, get. rewrite Hsame. exact H'.
  - destruct (existence_check_trace w ("Checking if user " +:+ name +:+ " exists")
                (get_func (api w "rest2" +:+ "sys_sec_User?q=username==" +:+ name)) st
                _ eq_refl) as (o & rest & H).
    exists o, rest. exact H.
Qed.

Lemma role_lookup_is_upper_cased_witness :
  (exists o rest o' rest',
     trace (snd (role_exists (backend 1) "ADMIN" start))
     = trace start ++ EvDebug "Checking if role ADMIN exists"
         :: EvRequest {| method := GET;
                         url := "http://localhost:8080/api/v2/sys_sec_Role?q=name==ADMIN";
                         headers := _get_default_headers "stale";
                         data := None |} o :: rest /\
     trace (snd (role_exists (backend 1) "admin" start))
     = trace start ++ EvDebug "Checking if role admin exists"
         :: EvRequest {| method := GET;
                         url := "http://localhost:8080/api/v2/sys_sec_Role?q=name==ADMIN";
                         headers := _get_default_headers "stale";
                         data := None |} o' :: rest') /\
  (exists o rest,
     trace (snd (user_exists (backend 1) "ADMIN" start))
     = trace start ++ EvDebug "Checking if user ADMIN exists"
         :: EvRequest {| method := GET;
                         url := "http://localhost:8080/api/v2/sys_sec_User?q=username==ADMIN";
                         headers := _get_default_headers "stale";
                         data := None |} o :: rest).
Proof.
  exact (role_lookup_is_upper_cased (backend 1) "ADMIN" "admin" start eq_refl).
Defined.

Lemma existence_check_returns w msg func st found st' :
  (log_debug msg ;;;
   (response <- request w func ;;
    response_json <- lift (json response) ;;
    total <- lift (py_getitem response_json "total") ;;
    n <- lift (py_int w total) ;;
    ret (0 <? n))) st = (Ok found, st') ->
  exists req r,
    func (token st) = Ok req /\
    network w (trace st ++ [EvDebug msg]) req = Responded r /\
    raise_for_status r = false /\
    reported_matches w r = Ok found /\
    st' = record (EvRequest req (Responded r)) (record (EvDebug msg) st).
Proof.
  unfold log_debug. unfold bind at 1. rewrite counting_tail. unfold request.
  match goal with |- context [handle_request w ?d ?f ?s] =>
    destruct (handle_request w d f s) as [[resp|e] st1] eqn:Hcall
  end; [|discriminate].
  intros [= Hfound <-].
  apply handle_request_returns_first_answer in Hcall.
  destruct Hcall as (req & Hreq & Hnet & Hstatus & ->).
  exists req, resp. auto.
Qed.

(** X16: [ensure_principal_exists] returns without an error only when the
    principal type is USER or ROLE and the one query for the principal,
    by user name as given or by upper-cased role name, was answered without
    an error status and with a total greater than 0; it has then sent
    that one request, made no login and kept the token.  For any other
    principal type it never returns. *)
Theorem ensure_principal_exists_returns_only_when_found
    w principal_name principal_type st st' :
  ensure_principal_exists w principal_name principal_type st = (Ok tt, st') ->
  exists p r,
    principal_type = Member p /\
    network w
      (trace st ++ [EvDebug ("Checking if " +:+ principal_value p +:+ " "
                             +:+ principal_name +:+ " exists")])
      {| method := GET;
         url := api w "rest2" +:+
                match p with
                | USER => "sys_sec_User?q=username==" +:+ principal_name
                | ROLE => "sys_sec_Role?q=name==" +:+ upper w principal_name
                end;
         headers := _get_default_headers (token st);
         data := None |}
    = Responded r /\
    raise_for_status r = false /\
    reported_matches w r = Ok true /\
    token st' = token st /\
    logins_made (trace st') = logins_made (trace st) /\
    requests_sent (trace st') = S (requests_sent (trace st)).
Proof.
  unfold ensure_principal_exists. unfold bind at 1.
  destruct (principal_exists w principal_name principal_type st) as [[found|e] st1] eqn:Hexists;
    [|discriminate].
  destruct found; cbn [negb];
    [|destruct principal_type; discriminate].
  intros [= <-].
  destruct principal_type as [p|shown]; [|discriminate Hexists].
  exists p.
  assert (Hcount : forall req r,
    st1 = record (EvRequest req (Responded r))
            (record (EvDebug ("Checking if " +:+ principal_value p +:+ " "
                              +:+ principal_name +:+ " exists")) st) ->
    token st1 = token st /\
    logins_made (trace st1) = logins_made (trace st) /\
    requests_sent (trace st1) = S (requests_sent (trace st))).
  { intros req r ->. cbn [record trace token].
    unfold logins_made, requests_sent.
    rewrite !List.filter_app, !length_app. simpl. repeat split; lia. }
  destruct p; cbn [principal_exists] in Hexists;
    apply existence_check_returns in Hexists;
    destruct Hexists as (req & r & [= <-] & Hnet & Hstatus & Hfound & Hst);
    exists r; destruct (Hcount _ _ Hst) as (H1 & H2 & H3); auto 10.
Qed.

Lemma ensure_principal_exists_returns_only_when_found_witness :
  exists p r,
    Member USER = Member p /\
    network (backend 1)
      (trace start ++ [EvDebug ("Checking if " +:+ principal_value p +:+ " "
                                +:+ "admin" +:+ " exists")])
      {| method := GET;
         url := api (backend 1) "rest2" +:+
                match p with
                | USER => "sys_sec_User?q=username==" +:+ "admin"
                | ROLE => "sys_sec_Role?q=name==" +:+ upper (backend 1) "admin"
                end;
         headers := _get_default_headers (token start);
         data := None |}
    = Responded r /\
    raise_for_status r = false /\
    reported_matches (backend 1) r = Ok true /\
    token (snd (ensure_principal_exists (backend 1) "admin" (Member USER) start)) = token start /\
    logins_made (trace (snd (ensure_principal_exists (backend 1) "admin" (Member USER) start)))
    = logins_made (trace start) /\
    requests_sent (trace (snd (ensure_principal_exists (backend 1) "admin" (Member USER) start)))
    = S (requests_sent (trace start)).
Proof.
  apply (ensure_principal_exists_returns_only_when_found (backend 1) "admin" (Member USER) start).
  vm_compute. reflexivity.
Defined.

Lemma grant_func_shape w p principal_name resource_type identifier permission tok req :
  grant_func w (Member p) principal_name resource_type identifier permission tok = Ok req ->
  method req = POST /\
  url req = api w "perm" +:+ get_resource_name resource_type +:+ "/" +:+ principal_value p /\
  headers req !! "Content-Type"
  = Some "application/x-www-form-urlencoded; charset=UTF-8" /\
  headers req !! "x-molgenis-token" = Some tok /\
  (exists form, data req = Some form /\ size form = 2%nat) /\
  form_field req ("radio-" +:+ identifier) = Some permission.
Proof.
  destruct (radio_is_not_a_principal_field identifier) as [Hu Hr].
  intros [= <-]. cbn [method url headers data]. unfold form_field. cbn [data].
  split; [reflexivity|]. split; [reflexivity|].
  split; [now rewrite lookup_insert_ne, lookup_singleton_eq|].
  split; [now rewrite lookup_insert_eq|].
  split.
  - eexists. split; [reflexivity|].
    destruct p; rewrite map_size_insert_None, map_size_singleton; try reflexivity;
      now apply lookup_singleton_ne.
  - destruct p; now rewrite lookup_insert_ne, lookup_singleton_eq.
Qed.

(** X19: every request [grant] sends for a USER or ROLE principal is a
    POST to the permission URL followed by the path segment of the resource
    type and [user] or [role]; it is form-encoded, carries a session token,
    and its form has exactly two fields, of which [radio-<identifier>] holds
    the permission. *)
Theorem grant_request_shape w p principal_name resource_type identifier permission st :
  exists added,
    trace (snd (grant w (Member p) principal_name resource_type identifier permission st))
    = trace st ++ added /\
    Forall (fun ev => forall req o, ev = EvRequest req o ->
              method req = POST /\
              url req = api w "perm" +:+ get_resource_name resource_type
                        +:+ "/" +:+ principal_value p /\
              headers req !! "Content-Type"
              = Some "application/x-www-form-urlencoded; charset=UTF-8" /\
              (exists tok, headers req !! "x-molgenis-token" = Some tok) /\
              (exists form, data req = Some form /\ size form = 2%nat) /\
              form_field req ("radio-" +:+ identifier) = Some permission)
           added.
Proof.
  unfold grant, request.
  destruct (handle_request_requests w (S (recursion_limit w))
              (grant_func w (Member p) principal_name resource_type identifier permission) st)
    as (added & Heq & Hall & _).
  exists added. split; [exact Heq|].
  eapply Forall_impl; [exact Hall|].
  intros ev Hev req o ->. destruct Hev as [tok Htok].
  apply grant_func_shape in Htok.
  destruct Htok as (H1 & H2 & H3 & H4 & H5 & H6). eauto 10.
Qed.

(** ** The script runners and the entry point *)

(** X20: a line the argument parser rejects ends the script in both
    runners with the parser's own exception, whatever [--ignore-errors]
    says: the lines before it are run, the lines after it are not. *)
Theorem unparsable_line_ends_the_script w func flag before line after e st :
  parse_args w (split_space line) = Raise e ->
  Mcmd.run_lines w func flag (before ++ line :: after) st
  = (Mcmd.run_lines w func flag before ;;; raise e) st /\
  Mdev.run_lines w func flag (before ++ line :: after) st
  = (Mdev.run_lines w func flag before ;;; raise e) st.
Proof.
  intros Hparse. split.
  - rewrite mcmd_run_lines_app. unfold bind at 1 2.
    destruct (Mcmd.run_lines w func flag before st) as [[[]|e'] st1]; [|reflexivity].
    cbn [Mcmd.run_lines]. unfold bind, lift. now rewrite Hparse.
  - rewrite mdev_run_lines_app. unfold bind at 1 2.
    destruct (Mdev.run_lines w func flag before st) as [[[]|e'] st1]; [|reflexivity].
    cbn [Mdev.run_lines]. unfold bind, lift. now rewrite Hparse.
Qed.

Lemma unparsable_line_ends_the_script_witness :
  Mcmd.run_lines nested idle false (["add user bob"] ++ EmptyString :: ["add group staff"]) start
  = (Mcmd.run_lines nested idle false ["add user bob"] ;;; raise (SystemExit 2)) start /\
  Mdev.run_lines nested idle false (["add user bob"] ++ EmptyString :: ["add group staff"]) start
  = (Mdev.run_lines nested idle false ["add user bob"] ;;; raise (SystemExit 2)) start.
Proof.
  exact (unparsable_line_ends_the_script nested idle false ["add user bob"] EmptyString
           ["add group staff"] (SystemExit 2) start eq_refl).
Defined.

Lemma history_lines_app h1 h2 :
  history_lines (h1 ++ h2) = history_lines h1 ++ history_lines h2.
Proof.
  induction h1 as [|ev h1 IH]; [reflexivity|].
  destruct ev; simpl; rewrite IH; reflexivity.
Qed.

Lemma line_command_plain w line a :
  parse_args w (split_space line) = Ok a ->
  String.eqb (command a) "run" = false ->
  line_command w false line = Some a.
Proof. intros Hparse Hcmd. unfold line_command. now rewrite Hparse, Hcmd. Qed.

Lemma mdev_history_prefix w execute flag lines :
  (forall a f s,
     history_lines (trace (snd (execute a f s))) = history_lines (trace s) /\
     dispatched (trace (snd (execute a f s))) = dispatched (trace s) ++ [a]) ->
  forall st,
  exists k,
    history_lines (trace (snd (Mdev.run_lines w execute flag lines st)))
    = history_lines (trace st) ++ firstn k (List.filter (dispatchable w) lines) /\
    dispatched (trace (snd (Mdev.run_lines w execute flag lines st)))
    = dispatched (trace st)
      ++ script_commands w false (firstn k (List.filter (dispatchable w) lines)).
Proof.
  intros Hexec. induction lines as [|line rest IH]; intros st.
  { exists 0%nat. simpl. rewrite !app_nil_r. split; reflexivity. }
  cbn [Mdev.run_lines List.filter].
  unfold bind, lift, raise, Mdev.log_error, Mdev.history_write.
  destruct (parse_args w (split_space line)) as [a|e] eqn:Hparse.
  2:{ exists 0%nat. simpl. rewrite !app_nil_r. split; reflexivity. }
  destruct (String.eqb (command a) "run") eqn:Hcmd.
  { assert (Hd : dispatchable w line = false)
      by (unfold dispatchable, line_command; now rewrite Hparse, Hcmd).
    rewrite Hd.
    destruct flag; cbv beta iota.
    - exists 0%nat. cbn [snd record trace firstn script_commands].
      rewrite history_lines_app, dispatched_app. split; reflexivity.
    - match goal with |- context [Mdev.run_lines w execute false rest ?s] =>
        destruct (IH s) as (k & Hk1 & Hk2) end.
      exists k. rewrite Hk1, Hk2. cbn [record trace].
      rewrite history_lines_app, dispatched_app. simpl. rewrite ?app_nil_r.
      split; reflexivity. }
  assert (Hd : dispatchable w line = true)
    by (unfold dispatchable; now rewrite (line_command_plain _ _ _ Hparse Hcmd)).
  rewrite Hd.
  match goal with |- context [execute a flag ?s] =>
    destruct (Hexec a flag s) as [Hs1 Hs2];
    destruct (execute a flag s) as [[[]|e] st1]
  end; cbn [snd record trace] in Hs1, Hs2;
    rewrite history_lines_app in Hs1; rewrite dispatched_app in Hs2;
    simpl in Hs1, Hs2; rewrite app_nil_r in Hs2.
  - destruct (IH st1) as (k & Hk1 & Hk2). exists (S k). rewrite Hk1, Hk2, Hs1, Hs2.
    cbn [firstn script_commands]. rewrite (line_command_plain _ _ _ Hparse Hcmd).
    rewrite <- !app_assoc. split; reflexivity.
  - exists 1%nat. cbn [snd firstn script_commands].
    rewrite (line_command_plain _ _ _ Hparse Hcmd), Hs1, Hs2. split; reflexivity.
Qed.

Lemma mdev_history_complete w execute flag lines :
  (forall a f s,
     history_lines (trace (snd (execute a f s))) = history_lines (trace s) /\
     dispatched (trace (snd (execute a f s))) = dispatched (trace s) ++ [a]) ->
  forall st,
    fst (Mdev.run_lines w execute flag lines st) = Ok tt ->
    history_lines (trace (snd (Mdev.run_lines w execute flag lines st)))
    = history_lines (trace st) ++ List.filter (dispatchable w) lines.
Proof.
  intros Hexec. induction lines as [|line rest IH]; intros st.
  { intros _. simpl. now rewrite app_nil_r. }
  cbn [Mdev.run_lines List.filter].
  unfold bind, lift, raise, Mdev.log_error, Mdev.history_write.
  destruct (parse_args w (split_space line)) as [a|e] eqn:Hparse; [|discriminate].
  destruct (String.eqb (command a) "run") eqn:Hcmd.
  { assert (Hd : dispatchable w line = false)
      by (unfold dispatchable, line_command; now rewrite Hparse, Hcmd).
    rewrite Hd.
    destruct flag; cbv beta iota; [discriminate|].
    intros Hok. rewrite (IH _ Hok). cbn [record trace].
    rewrite history_lines_app. simpl. now rewrite app_nil_r. }
  assert (Hd : dispatchable w line = true)
    by (unfold dispatchable; now rewrite (line_command_plain _ _ _ Hparse Hcmd)).
  rewrite Hd.
  match goal with |- context [execute a flag ?s] =>
    destruct (Hexec a flag s) as [Hs1 _];
    destruct (execute a flag s) as [[[]|e] st1]
  end; [|discriminate].
  cbn [snd record trace] in Hs1. rewrite history_lines_app in Hs1. simpl in Hs1.
  intros Hok. rewrite (IH _ Hok), Hs1, <- app_assoc. reflexivity.
Qed.

(** X21: when executing a command records that command and writes no
    history itself, the runner of [mdev/__main__.py] has written to the
    history exactly the lines whose commands it has dispatched, in the same
    order, and these are an initial stretch of the lines of the script that
    parse to a command other than [run]; a nested [run] line or a line that
    does not parse is never written.  A run that ends well has written all
    of these lines.  A line of that kind that is reached is written,
    whether its command then ends well or fails. *)
Theorem mdev_history_is_the_dispatched_lines w execute flag lines :
  (forall a f s,
     history_lines (trace (snd (execute a f s))) = history_lines (trace s) /\
     dispatched (trace (snd (execute a f s))) = dispatched (trace s) ++ [a]) ->
  forall st,
  (exists k,
     history_lines (trace (snd (Mdev.run_lines w execute flag lines st)))
     = history_lines (trace st) ++ firstn k (List.filter (dispatchable w) lines) /\
     dispatched (trace (snd (Mdev.run_lines w execute flag lines st)))
     = dispatched (trace st)
       ++ script_commands w false (firstn k (List.filter (dispatchable w) lines))) /\
  (fst (Mdev.run_lines w execute flag lines st) = Ok tt ->
   history_lines (trace (snd (Mdev.run_lines w execute flag lines st)))
   = history_lines (trace st) ++ List.filter (dispatchable w) lines) /\
  (forall before line after,
     lines = before ++ line :: after ->
     fst (Mdev.run_lines w execute flag before st) = Ok tt ->
     dispatchable w line = true ->
     exists more,
       history_lines (trace (snd (Mdev.run_lines w execute flag lines st)))
       = history_lines (trace st)
         ++ List.filter (dispatchable w) before ++ line :: more).
Proof.
  intros Hexec st. split; [now apply mdev_history_prefix|].
  split; [now apply mdev_history_complete|].
  intros before line after -> Hbefore Hline.
  pose proof (mdev_history_complete w execute flag before Hexec st Hbefore) as Hdone.
  rewrite mdev_run_lines_app. unfold bind at 1.
  destruct (Mdev.run_lines w execute flag before st) as [[[]|e] st1]; [|discriminate].
  cbn [snd] in Hdone.
  cbn [Mdev.run_lines]. unfold bind, lift, raise, Mdev.log_error, Mdev.history_write.
  unfold dispatchable, line_command in Hline.
  destruct (parse_args w (split_space line)) as [a|e]; [|discriminate].
  destruct (String.eqb (command a) "run"); [discriminate|].
  match goal with |- context [execute a flag ?s] =>
    destruct (Hexec a flag s) as [Hs1 _];
    destruct (execute a flag s) as [[[]|e] st2]
  end; cbn [snd record trace] in Hs1; rewrite history_lines_app in Hs1; simpl in Hs1.
  - destruct (mdev_history_prefix w execute flag after Hexec st2) as (k & Hk & _).
    exists (firstn k (List.filter (dispatchable w) after)).
    rewrite Hk, Hs1, Hdone, <- !app_assoc. reflexivity.
  - exists []. cbn [snd]. rewrite Hs1, Hdone, <- !app_assoc. reflexivity.
Qed.

Lemma mdev_history_is_the_dispatched_lines_witness :
  history_lines
    (trace (snd (Mdev.run_lines three_lines (dispatch three_lines) false
                   ["add user bob"; "delete package base"; "add group staff"] start)))
  = history_lines (trace start)
    ++ List.filter (dispatchable three_lines)
         ["add user bob"; "delete package base"; "add group staff"] /\
  exists more,
    history_lines
      (trace (snd (Mdev.run_lines three_lines (dispatch three_lines) true
                     ["add user bob"; "delete package base"; "add group staff"] start)))
    = history_lines (trace start)
      ++ List.filter (dispatchable three_lines) ["add user bob"]
      ++ "delete package base" :: more.
Proof.
  assert (Hexec : forall a f s,
    history_lines (trace (snd (dispatch three_lines a f s))) = history_lines (trace s) /\
    dispatched (trace (snd (dispatch three_lines a f s))) = dispatched (trace s) ++ [a]).
  { intros a f s. rewrite dispatch_unfold.
    destruct (run_command three_lines (trace s) a); [destruct f|];
      cbn [snd record trace]; rewrite !history_lines_app, !dispatched_app; simpl;
      rewrite !app_nil_r; split; reflexivity. }
  split.
  - apply (mdev_history_is_the_dispatched_lines three_lines (dispatch three_lines) false
             ["add user bob"; "delete package base"; "add group staff"] Hexec start).
    reflexivity.
  - apply (mdev_history_is_the_dispatched_lines three_lines (dispatch three_lines) true
             ["add user bob"; "delete package base"; "add group staff"] Hexec start)
      with (after := ["add group staff"]); reflexivity.
Defined.

Lemma split_space_not_empty s : split_space s <> [].
Proof.
  destruct s as [|c s]; [discriminate|]. simpl.
  destruct (Ascii.eqb c " "); [discriminate|].
  destruct (split_space s); discriminate.
Qed.

Lemma join_first_char sep c word words :
  join sep (String c word :: words) = String c (join sep (word :: words)).
Proof. destruct words; reflexivity. Qed.

Lemma join_split_space line : join " " (split_space line) = line.
Proof.
  induction line as [|c line IH]; [reflexivity|].
  cbn [split_space]. destruct (Ascii.eqb c " ") eqn:Hc.
  - apply Ascii.eqb_eq in Hc. subst c.
    pose proof (split_space_not_empty line) as Hne.
    cbn [join]. destruct (split_space line) as [|word words]; [contradiction|].
    change (String " " (join " " (word :: words)) = String " " line). now rewrite IH.
  - pose proof (split_space_not_empty line) as Hne.
    destruct (split_space line) as [|word words]; [contradiction|].
    rewrite join_first_char, IH. reflexivity.
Qed.

(** X22: splitting a line at its blanks and joining the words with blanks
    gives the line back, so a command called directly with the words of a
    line has exactly that line written to the history before it is
    executed, the entry the script runner writes for the line; a direct
    call always executes with [exit_on_error] set. *)
Theorem main_writes_the_command_line w execute line args st :
  parse_args w (split_space line) = Ok args ->
  set_log_level w args = Ok tt ->
  command args <> "run" ->
  join " " (split_space line) = line /\
  main w execute (split_space line) st
  = execute args true {| token := token st; trace := trace st ++ [EvHistory line] |}.
Proof.
  intros Hparse Hlevel Hcmd. split; [apply join_split_space|].
  unfold main, bind, lift, Mdev.history_write. rewrite Hparse, Hlevel.
  apply String.eqb_neq in Hcmd. rewrite Hcmd, join_split_space. reflexivity.
Qed.

Lemma main_writes_the_command_line_witness :
  join " " (split_space "add  user bob") = "add  user bob" /\
  main nested idle (split_space "add  user bob") start
  = idle (parsed "add" EmptyString EmptyString) true
      {| token := token start; trace := trace start ++ [EvHistory "add  user bob"] |}.
Proof.
  apply (main_writes_the_command_line nested idle "add  user bob"
           (parsed "add" EmptyString EmptyString) start eq_refl eq_refl).
  discriminate.
Defined.

(** ** The wrapper of [mdev/requests.py] *)

Lemma log_each_message_all items msgs :
  Forall2 (fun error msg => py_getitem error "message" = Ok msg) items msgs ->
  forall st,
    Mdev.log_each_message items st
    = (Ok tt, {| token := token st; trace := trace st ++ map EvError msgs |}).
Proof.
  induction 1 as [|error msg items msgs Hmsg _ IH]; intros st.
  { simpl. unfold ret. rewrite app_nil_r. now destruct st. }
  cbn [Mdev.log_each_message map]. unfold bind, lift, Mdev.log_error.
  rewrite Hmsg, IH. cbn [record trace token]. rewrite <- app_assoc. reflexivity.
Qed.

(** X23: on an error answer with a JSON Content-Type and a list of errors
    that all have a message, the wrapper of [mdev/requests.py] logs every
    message, in the order of the list, and then exits with status 1; the
    text of the HTTP error itself is not logged. *)
Theorem mdev_wrapper_logs_every_message w request st r ct top items msgs :
  network w (trace st) request = Responded r ->
  raise_for_status r = true ->
  content_type r = Some ct ->
  contains "application/json" ct = true ->
  body r = Some (VDict top) ->
  dict_get "errors" top = Some (VList items) ->
  Forall2 (fun error msg => py_getitem error "message" = Ok msg) items msgs ->
  Mdev._handle_request w request st
  = (Raise (SystemExit 1),
     {| token := token st;
        trace := (trace st ++ [EvRequest request (Responded r)]) ++ map EvError msgs |}).
Proof.
  intros Hnet Hraise Hct Hjson Hbody Herrors Hmsgs.
  unfold Mdev._handle_request, send. rewrite Hnet. cbn zeta. rewrite Hraise, Hct, Hjson.
  unfold bind at 1 2 3. unfold lift at 1. unfold json at 1. rewrite Hbody.
  unfold bind at 1. unfold lift at 1. unfold py_contains.
  rewrite (dict_get_existsb _ _ _ Herrors).
  unfold bind at 1. unfold lift at 1. unfold json. rewrite Hbody.
  unfold bind at 1. unfold lift at 1. unfold py_getitem at 1. rewrite Herrors.
  unfold bind at 1. unfold lift at 1. unfold py_iter.
  unfold bind at 1. rewrite (log_each_message_all _ _ Hmsgs). reflexivity.
Qed.

Lemma mdev_wrapper_logs_every_message_witness :
  Mdev._handle_request rejected (query_with "stale") start
  = (Raise (SystemExit 1),
     {| token := token start;
        trace := (trace start ++ [EvRequest (query_with "stale") (Responded two_errors)])
                 ++ map EvError [VStr "Unknown entity type 'base'";
                                 VStr "Unknown attribute 'label'"] |}).
Proof.
  apply (mdev_wrapper_logs_every_message rejected (query_with "stale") start two_errors
           "application/json"
           [("errors",
             VList [VDict [("message", VStr "Unknown entity type 'base'"); ("code", VStr "D01")];
                    VDict [("message", VStr "Unknown attribute 'label'"); ("code", VStr "D04")]])]
           [VDict [("message", VStr "Unknown entity type 'base'"); ("code", VStr "D01")];
            VDict [("message", VStr "Unknown attribute 'label'"); ("code", VStr "D04")]]
           [VStr "Unknown entity type 'base'"; VStr "Unknown attribute 'label'"]);
    try reflexivity.
  repeat constructor.
Defined.

(** X24: an error answer without a Content-Type header makes the wrapper
    of [mdev/requests.py] end in a [TypeError], raised by the membership
    test on the missing header: nothing is logged and the process does not
    exit with status 1. *)
Theorem mdev_wrapper_without_content_type w request st r :
  network w (trace st) request = Responded r ->
  raise_for_status r = true ->
  content_type r = None ->
  Mdev._handle_request w request st
  = (Raise TypeError,
     {| token := token st; trace := trace st ++ [EvRequest request (Responded r)] |}).
Proof.
  intros Hnet Hraise Hct.
  unfold Mdev._handle_request, send. rewrite Hnet. cbn zeta. rewrite Hraise, Hct.
  reflexivity.
Qed.

Lemma mdev_wrapper_without_content_type_witness :
  Mdev._handle_request (always headerless) (query_with "stale") start
  = (Raise TypeError,
     {| token := token start;
        trace := trace start ++ [EvRequest (query_with "stale") (Responded headerless)] |}).
Proof.
  exact (mdev_wrapper_without_content_type (always headerless) (query_with "stale") start
           headerless eq_refl eq_refl eq_refl).
Defined.

Lemma log_each_message_trace items :
  forall st,
  exists logs,
    trace (snd (Mdev.log_each_message items st)) = trace st ++ logs /\
    forallb is_error_log logs = true /\
    token (snd (Mdev.log_each_message items st)) = token st /\
    (forall m, fst (Mdev.log_each_message items st) <> Raise (McmdError m)).
Proof.
  induction items as [|error items IH]; intros st.
  { exists []. simpl. rewrite app_nil_r. repeat split. discriminate. }
  cbn [Mdev.log_each_message]. unfold bind, lift, Mdev.log_error.
  destruct (py_getitem error "message") as [message|e] eqn:Hmsg.
  - destruct (IH (record (EvError message) st)) as (logs & Htrace & Hlogs & Htok & Hno).
    exists (EvError message :: logs). cbn [record trace token] in *.
    rewrite Htrace, Htok, <- app_assoc. simpl. rewrite Hlogs. repeat split. exact Hno.
  - exists []. simpl. rewrite app_nil_r. repeat split.
    intros m [= ->]. unfold py_getitem in Hmsg.
    destruct error; try discriminate. destruct (dict_get "message" items0); discriminate.
Qed.

Lemma mdev_wrapper_outcome w request st :
  exists res st' logs,
    Mdev._handle_request w request st = (res, st') /\
    trace st' = trace st ++ EvRequest request (network w (trace st) request) :: logs /\
    forallb is_error_log logs = true /\
    token st' = token st /\
    match res with
    | Ok resp =>
        network w (trace st) request = Responded resp /\
        raise_for_status resp = false /\ logs = []
    | Raise e =>
        (forall m, e <> McmdError m) /\
        (forall resp, network w (trace st) request = Responded resp ->
                      raise_for_status resp = true)
    end.
Proof.
  unfold Mdev._handle_request, send.
  destruct (network w (trace st) request) as [r|text] eqn:Hnet; cbn zeta.
  2:{ eexists _, _, [EvError (VStr text)]. split; [reflexivity|].
      cbn [record trace token]. rewrite <- app_assoc.
      repeat split; discriminate. }
  destruct (raise_for_status r) eqn:Hraise.
  2:{ eexists _, _, []. split; [reflexivity|]. cbn [record trace token].
      repeat split; assumption. }
  set (st1 := record (EvRequest request (Responded r)) st).
  assert (Hleaf : forall (e : exn) logs st',
    (forall m, e <> McmdError m) ->
    trace st' = trace st1 ++ logs ->
    forallb is_error_log logs = true ->
    token st' = token st ->
    exists res st'' logs0,
      (@Raise Response e, st') = (res, st'') /\
      trace st'' = trace st ++ EvRequest request (Responded r) :: logs0 /\
      forallb is_error_log logs0 = true /\
      token st'' = token st /\
      match res with
      | Ok resp => Responded r = Responded resp /\ raise_for_status resp = false /\ logs0 = []
      | Raise e0 =>
          (forall m, e0 <> McmdError m) /\
          (forall resp, Responded r = Responded resp -> raise_for_status resp = true)
      end).
  { intros e logs st' He Htrace Hlogs Htok. exists (Raise e), st', logs.
    split; [reflexivity|]. split.
    - rewrite Htrace. unfold st1. cbn [record trace]. now rewrite <- app_assoc.
    - repeat split; try assumption. intros resp [= <-]. assumption. }
  unfold bind, lift, raise, ret, Mdev.log_error.
  destruct (content_type r) as [ct|].
  2:{ apply (Hleaf _ []); [discriminate | now rewrite app_nil_r | reflexivity | reflexivity]. }
  destruct (contains "application/json" ct).
  2:{ apply (Hleaf _ [EvError (VStr (error_text r))]); try reflexivity. discriminate. }
  destruct (json r) as [j|e] eqn:Hjson.
  2:{ apply (Hleaf _ []); [|now rewrite app_nil_r | reflexivity | reflexivity].
      intros m ->. unfold json in Hjson. destruct (body r); discriminate. }
  destruct (py_contains "errors" j) as [[]|e] eqn:Hin.
  3:{ apply (Hleaf _ []); [|now rewrite app_nil_r | reflexivity | reflexivity].
      intros m ->. destruct j; discriminate. }
  2:{ apply (Hleaf _ [EvError (VStr (error_text r))]); try reflexivity. discriminate. }
  destruct (py_getitem j "errors") as [errors|e] eqn:Hget.
  2:{ apply (Hleaf _ []); [|now rewrite app_nil_r | reflexivity | reflexivity].
      intros m ->. unfold py_getitem in Hget.
      destruct j; try discriminate. destruct (dict_get "errors" items); discriminate. }
  destruct (py_iter errors) as [items|e] eqn:Hiter.
  2:{ apply (Hleaf _ []); [|now rewrite app_nil_r | reflexivity | reflexivity].
      intros m ->. destruct errors; discriminate. }
  destruct (log_each_message_trace items st1) as (logs & Hl1 & Hl2 & Hl3 & Hl4).
  destruct (Mdev.log_each_message items st1) as [[[]|e] st2]; cbn [fst snd] in *.
  - apply (Hleaf _ logs); try assumption. discriminate.
  - apply (Hleaf _ logs); try assumption. intros m ->. now apply (Hl4 m).
Qed.

(** X25: the wrapper of [mdev/requests.py] puts exactly one request on the
    wire, then only writes error lines to the log: it never logs in, never
    changes the token and never raises an [McmdError]; it returns a response
    exactly when that one request is answered without an error status, and
    has logged nothing then. *)
Theorem mdev_wrapper_sends_once w request st :
  exists logs,
    trace (snd (Mdev._handle_request w request st))
    = trace st ++ EvRequest request (network w (trace st) request) :: logs /\
    forallb is_error_log logs = true /\
    token (snd (Mdev._handle_request w request st)) = token st /\
    (forall m, fst (Mdev._handle_request w request st) <> Raise (McmdError m)) /\
    (forall resp,
       fst (Mdev._handle_request w request st) = Ok resp <->
       network w (trace st) request = Responded resp /\ raise_for_status resp = false) /\
    (forall resp, fst (Mdev._handle_request w request st) = Ok resp -> logs = []).
Proof.
  destruct (mdev_wrapper_outcome w request st)
    as (res & st' & logs & -> & Htrace & Hlogs & Htok & Hres).
  exists logs. cbn [fst snd].
  split; [assumption|]. split; [assumption|]. split; [assumption|].
  destruct res as [resp0|e].
  - destruct Hres as (Hnet & Hstatus & ->).
    split; [intros m; discriminate|]. split; [|reflexivity].
    intros resp. split.
    + intros [= <-]. auto.
    + intros [Hnet' _]. rewrite Hnet in Hnet'. now injection Hnet' as ->.
  - destruct Hres as [Hno Herr].
    split; [intros m [= ->]; now apply (Hno m)|].
    split; [|intros resp; discriminate].
    intros resp. split; [discriminate|].
    intros [Hnet Hstatus]. rewrite (Herr _ Hnet) in Hstatus. discriminate.
Qed.
